(** * Batching, streaming and validation of the PV forecasting starter kit

    A shallow embedding of [submission/competition.py] (the
    [BaseEvaluator] class: [batch] and [evaluate]), of the [predict]
    method of [submission/run.py] and of [validate.py], together with the
    properties the specification states about them.

    Conventions.
    - A Python exception is a value of [exn]; a call that may raise
      returns a [result].
    - A generator is the finite sequence of what it yields, ended by a
      normal return or by the exception that escapes it ([gen]).
    - An [h5py.File] is a finite map from names to series; a series is
      the list of its rows along the leading axis. *)

From Stdlib Require Import ZArith String Ascii PrimFloat Uint63 SpecFloat FloatOps.
From stdpp Require Import gmap strings list pretty.

Local Open Scope string_scope.
Local Open Scope list_scope.
Local Open Scope nat_scope.

(** ** Exceptions and results *)

(** The exceptions the modelled code can raise.  The specification names
    them by role: its [ConfigurationError] is the [ValueError] of
    [batch], its [MissingVariableError] the failed [assert variable in
    features], its [ShapeError] the failed [assert sample.shape ==
    (48,)], its [InputNotFoundError] the [FileNotFoundError] of
    [h5py.File]. *)
Inductive exn : Type :=
  | ValueError (msg : string)
  | AssertionError
  | KeyError (key : string)
  | IndexError
  | FileNotFoundError
  | NotImplementedError
  | RuntimeError (msg : string).

Inductive result (A : Type) : Type :=
  | Ok (a : A)
  | Raise (e : exn).
Arguments Ok {A} a.
Arguments Raise {A} e.

(** A finite generator: the values yielded in order, then [Done] when the
    body returns or [Throw e] when [e] escapes it. *)
Inductive gen (A : Type) : Type :=
  | Done
  | Throw (e : exn)
  | Yield (a : A) (rest : gen A).
Arguments Done {A}.
Arguments Throw {A} e.
Arguments Yield {A} a rest.

Fixpoint yielded {A} (g : gen A) : list A :=
  match g with
  | Done | Throw _ => []
  | Yield a rest => a :: yielded rest
  end.

Fixpoint outcome {A} (g : gen A) : result unit :=
  match g with
  | Done => Ok tt
  | Throw e => Raise e
  | Yield _ rest => outcome rest
  end.

(** The generator that yields the elements of [l] and returns. *)
Fixpoint yield_all {A} (l : list A) : gen A :=
  match l with
  | [] => Done
  | a :: l' => Yield a (yield_all l')
  end.

(** ** Python built-ins used by the batcher *)

(** [range(0, stop, step)] for a positive [step], by iteration: the
    counter starts at [i] and advances by [step] while it is below
    [stop].  [fuel] bounds the number of iterations. *)
Fixpoint range_from (fuel i stop step : nat) : list nat :=
  match fuel with
  | O => []
  | S fuel' =>
      if i <? stop then i :: range_from fuel' (i + step) stop step else []
  end.

(** [range(0, stop, step)] with [stop = len(...)]: a zero step raises, a
    negative step gives the empty range. *)
Definition py_range (stop : nat) (step : Z) : result (list nat) :=
  match step with
  | Z0 => Raise (ValueError "range() arg 3 must not be zero")
  | Zpos p => Ok (range_from stop 0 stop (Pos.to_nat p))
  | Zneg _ => Ok []
  end.

(** A slice bound normalised as [slice.indices] does: a negative bound
    counts from the end, and the bound is clipped to [0 .. len]. *)
Definition clip_index (len : nat) (i : Z) : nat :=
  Z.to_nat (Z.min (Z.of_nat len)
                  (Z.max 0 (if (i <? 0)%Z then (i + Z.of_nat len)%Z else i))).

(** [l[start:stop]] *)
Definition py_slice {A} (l : list A) (start stop : Z) : list A :=
  let a := clip_index (length l) start in
  let b := clip_index (length l) stop in
  take (b - a) (drop a l).

(** Ceiling of [n / d], for [d > 0]. *)
Definition ceil_div (n d : Z) : Z := ((n + d - 1) / d)%Z.

(** ** The batcher: [BaseEvaluator.batch] *)

Module Batcher.
Section Batcher.

(** A row of a series: one sample of one variable. *)
Context {Row : Type}.

Abbreviation series := (list Row).
(** The open [h5py.File]. *)
Abbreviation FeatureSet := (gmap string (list Row)).
(** One batch: one slice per requested variable. *)
Abbreviation Batch := (list (list Row)).

(** Code that reads the open file: the file is threaded through, and an
    exception leaves with the file as it was at that point. *)
Definition M (A : Type) : Type := FeatureSet → result A * FeatureSet.

Definition ret {A} (a : A) : M A := fun σ => (Ok a, σ).
Definition raise {A} (e : exn) : M A := fun σ => (Raise e, σ).
Definition bind {A B} (m : M A) (k : A → M B) : M B :=
  fun σ => match m σ with
           | (Ok a, σ') => k a σ'
           | (Raise e, σ') => (Raise e, σ')
           end.
Definition lift {A} (r : result A) : M A := fun σ => (r, σ).

Notation "'do' x <- m ; k" := (bind m (fun x => k))
  (at level 10, x name, m at level 100, k at level 200).
Notation "m ;; k" := (bind m (fun _ => k))
  (at level 100, k at level 200, right associativity).

(** [variable in features] *)
Definition contains (variable : string) : M bool :=
  fun σ => (Ok (bool_decide (is_Some (σ !! variable))), σ).

(** [features[variable]] *)
Definition getitem (variable : string) : M series :=
  fun σ => match σ !! variable with
           | Some d => (Ok d, σ)
           | None => (Raise (KeyError variable), σ)
           end.

(** [assert b] *)
Definition assert (b : bool) : M unit :=
  if b then ret tt else raise AssertionError.

(** [for x in xs: body(x)] *)
Fixpoint for_each {A} (xs : list A) (body : A → M unit) : M unit :=
  match xs with
  | [] => ret tt
  | x :: xs' => body x ;; for_each xs' body
  end.

(** [[f(x) for x in xs]] *)
Fixpoint list_comp {A B} (xs : list A) (f : A → M B) : M (list B) :=
  match xs with
  | [] => ret []
  | x :: xs' => do b <- f x; do bs <- list_comp xs' f; ret (b :: bs)
  end.

(** [{x: f(x) for x in xs}]: a later occurrence of a key overwrites an
    earlier one. *)
Fixpoint dict_comp {B} (xs : list string) (f : string → M B)
    (acc : gmap string B) : M (gmap string B) :=
  match xs with
  | [] => ret acc
  | x :: xs' => do b <- f x; dict_comp xs' f (<[x := b]> acc)
  end.

(** [d[key]] on a local dictionary. *)
Definition dict_get {B} (d : gmap string B) (key : string) : M B :=
  match d !! key with
  | Some b => ret b
  | None => raise (KeyError key)
  end.

(** [for x in xs: yield body(x)]: the generator of the loop. *)
Fixpoint yield_for {A B} (xs : list A) (body : A → M B)
    : FeatureSet → gen B * FeatureSet :=
  fun σ =>
    match xs with
    | [] => (Done, σ)
    | x :: xs' =>
        match body x σ with
        | (Ok b, σ') =>
            let '(g, σ'') := yield_for xs' body σ' in (Yield b g, σ'')
        | (Raise e, σ') => (Throw e, σ')
        end
    end.

(** [BaseEvaluator.batch(features, variables, batch_size)], run to
    exhaustion on the file [features]: the generator and the file
    afterwards. *)
Definition batch (variables : list string) (batch_size : Z)
    (features : FeatureSet) : gen Batch * FeatureSet :=
  let prologue : M (gmap string series * list nat) :=
    match variables with
    | [] => raise (ValueError "At least one data variable must be specified.")
    | variable0 :: _ =>
        for_each variables (fun variable =>
          do b <- contains variable; assert b) ;;
        do datasets <- dict_comp variables getitem ∅;
        do first <- dict_get datasets variable0;
        do indices <- lift (py_range (length first) batch_size);
        ret (datasets, indices)
    end in
  match prologue features with
  | (Raise e, σ) => (Throw e, σ)
  | (Ok (datasets, indices), σ) =>
      yield_for indices (fun i =>
        list_comp variables (fun variable =>
          do d <- dict_get datasets variable;
          ret (py_slice d (Z.of_nat i) (Z.of_nat i + batch_size))))
        σ
  end.

(** The requested variables are all in the file. *)
Definition all_present (features : FeatureSet) (variables : list string) : Prop :=
  Forall (fun v => is_Some (features !! v)) variables.

(** A computation that leaves the file as it found it. *)
Definition reads {A} (m : M A) : Prop := ∀ σ, snd (m σ) = σ.

End Batcher.
End Batcher.

(** ** Numbers and arrays *)

(** The element type of the arrays and the arithmetic NumPy performs on
    it.  [add_reduce l] is the sum [numpy.add.reduce] makes of the
    elements [l] of an array taken in row-major order; NumPy chooses the
    order of the additions, which is not from left to right, so that at a
    floating-point type it is an operation of its own and not a fold of
    [add].  [str_float x] is [str(float(x))]. *)
Class Numeric (F : Type) : Type := {
  zero : F;
  add : F → F → F;
  sub : F → F → F;
  absolute : F → F;
  divide : F → F → F;
  add_reduce : list F → F;
  of_count : nat → F;
  str_float : F → string
}.

(** A two-dimensional array: [cells] holds the rows, [ncols] the length
    of the second axis, so that the shape is [(length cells, ncols)] also
    when there is no row. *)
Record ndarray (F : Type) : Type := mk_ndarray {
  ncols : nat;
  cells : list (list F)
}.
Arguments mk_ndarray {F} ncols cells.
Arguments ncols {F} n.
Arguments cells {F} n.

Definition nrows {F} (a : ndarray F) : nat := length (cells a).

(** Every row has the length the shape announces. *)
Definition well_shaped {F} (a : ndarray F) : Prop :=
  Forall (fun row => length row = ncols a) (cells a).

Module Numpy.
Section Numpy.

Context {F : Type} `{Numeric F}.

(** [numpy.concatenate(arrays)], along the first axis. *)
Definition concatenate (arrays : list (ndarray F)) : result (ndarray F) :=
  match arrays with
  | [] => Raise (ValueError "need at least one array to concatenate")
  | a :: _ =>
      if forallb (fun b => ncols b =? ncols a) arrays
      then Ok (mk_ndarray (ncols a) (concat (map cells arrays)))
      else Raise (ValueError "all the input array dimensions except for the concatenation axis must match exactly")
  end.

(** Broadcasting of one axis: equal lengths, or one of them is 1. *)
Definition broadcast_dim (n m : nat) : option nat :=
  if n =? m then Some n
  else if n =? 1 then Some m
  else if m =? 1 then Some n
  else None.

(** An axis of length 1 is repeated to length [n]; any other is kept. *)
Definition stretch {A} (n : nat) (l : list A) : list A :=
  match l with
  | [x] => replicate n x
  | _ => l
  end.

Definition broadcast_to (r c : nat) (a : ndarray F) : list (list F) :=
  map (stretch c) (stretch r (cells a)).

(** [a - b] *)
Definition subtract (a b : ndarray F) : result (ndarray F) :=
  match broadcast_dim (nrows a) (nrows b), broadcast_dim (ncols a) (ncols b) with
  | Some r, Some c =>
      Ok (mk_ndarray c
            (zip_with (zip_with sub) (broadcast_to r c a) (broadcast_to r c b)))
  | _, _ => Raise (ValueError "operands could not be broadcast together")
  end.

(** [numpy.absolute(a)] *)
Definition np_absolute (a : ndarray F) : ndarray F :=
  mk_ndarray (ncols a) (map (map absolute) (cells a)).

(** [numpy.mean(a)]: NumPy's sum of all the elements, divided by the
    number of elements the shape gives. *)
Definition mean (a : ndarray F) : F :=
  divide (add_reduce (concat (cells a))) (of_count (nrows a * ncols a)).

End Numpy.
End Numpy.

(** ** The evaluator of [submission/run.py] *)

Module Run.
Section Run.

Context {Row F : Type}.

(** What a [predict] method is: called on the open feature file it
    raises, or returns the generator of the prediction batches. *)
Definition predictor : Type :=
  gmap string (list Row) → result (gen (ndarray F)).

(** [BaseEvaluator.predict]: not a generator, the call itself raises. *)
Definition base_predict : predictor := fun _ => Raise NotImplementedError.

(** The network with its loaded parameters, applied to a [pv] and an
    [hrv] slice. *)
Definition Model : Type := list Row → list Row → result (ndarray F).

(** [for pv, hrv in <batches>: yield self.model(pv, hrv)] *)
Fixpoint predict_loop (model : Model) (batches : gen (list (list Row)))
    : gen (ndarray F) :=
  match batches with
  | Done => Done
  | Throw e => Throw e
  | Yield b rest =>
      match b with
      | [pv; hrv] =>
          match model pv hrv with
          | Ok y => Yield y (predict_loop model rest)
          | Raise e => Throw e
          end
      | _ => Throw (ValueError "wrong number of values to unpack")
      end
  end.

(** [Evaluator.predict]: a generator function, so the call returns the
    generator and the body runs when the generator is resumed. *)
Definition predict (model : Model) : predictor :=
  fun features =>
    Ok (predict_loop model (fst (Batcher.batch ["pv"; "hrv"] 32 features))).

(** [Evaluator()]: [setup] loads the parameters of [model.pt] and fails
    when they cannot be loaded. *)
Definition Evaluator (model_pt : option Model) : result predictor :=
  match model_pt with
  | Some model => Ok (predict model)
  | None => Raise FileNotFoundError
  end.

End Run.
End Run.

(** ** The live path: [BaseEvaluator.evaluate] *)

(** The line feed. *)
Definition nl : string := String (ascii_of_nat 10) EmptyString.

(** What [evaluate] does to the outside, in program order. *)
Inductive event : Type :=
  | EOpenSink (path : string)      (* [open(path, "w")] succeeded *)
  | EWrite (s : string)            (* [f.write(s)] *)
  | EFlush                         (* [f.flush()] *)
  | ECloseSink                     (* the [with] block is left *)
  | EOpenFeatures (path : string)  (* [h5py.File(path, "r")] is called *)
  | ENext.                         (* the loop asks [predict] for a batch *)

(** Effectful code of the live path: the events so far and the result. *)
Definition IO (A : Type) : Type := (list event * result A)%type.

Module Stream.
Section Stream.

Context {Row F : Type} `{Numeric F}.

Definition ret {A} (a : A) : IO A := ([], Ok a).
Definition raise {A} (e : exn) : IO A := ([], Raise e).
Definition emit (ev : event) : IO unit := ([ev], Ok tt).
Definition lift {A} (r : result A) : IO A := ([], r).
Definition bind {A B} (m : IO A) (k : A → IO B) : IO B :=
  match m with
  | (tr, Ok a) => let '(tr', r) := k a in (tr ++ tr', r)
  | (tr, Raise e) => (tr, Raise e)
  end.

Notation "'do' x <- m ; k" := (bind m (fun x => k))
  (at level 10, x name, m at level 100, k at level 200).
Notation "m ;; k" := (bind m (fun _ => k))
  (at level 100, k at level 200, right associativity).

(** The process and its surroundings: the environment variables, the
    command line, whether a path can be opened for writing, and the
    feature files that exist. *)
Record world : Type := mk_world {
  environ : gmap string string;
  argv : list string;
  writable : string → bool;
  h5files : gmap string (gmap string (list Row))
}.

Definition write (s : string) : IO unit := emit (EWrite s).
Definition flush : IO unit := emit EFlush.

(** [assert b] *)
Definition assert (b : bool) : IO unit :=
  if b then ret tt else raise AssertionError.

(** [with open(path, "w") as f: body]: the file is closed on every way
    out of the block. *)
Definition with_open {A} (w : world) (path : string) (body : IO A) : IO A :=
  if writable w path
  then let '(tr, r) := body in (EOpenSink path :: tr ++ [ECloseSink], r)
  else raise FileNotFoundError.

(** [sys.argv[i]] *)
Definition argv_get (w : world) (i : nat) : IO string :=
  match argv w !! i with
  | Some a => ret a
  | None => raise IndexError
  end.

(** [h5py.File(path, "r")] *)
Definition h5py_File (w : world) (path : string)
    : IO (gmap string (list Row)) :=
  emit (EOpenFeatures path) ;;
  match h5files w !! path with
  | Some features => ret features
  | None => raise FileNotFoundError
  end.

(** [os.environ.get("DOXA_STREAMS", ".")] *)
Definition stream_directory (w : world) : string :=
  default "." (environ w !! "DOXA_STREAMS").

(** [f"{stream_directory}/out"] *)
Definition sink_path (w : world) : string := stream_directory w +:+ "/out".

(** [for x in xs: body(x)] *)
Fixpoint for_each {A} (xs : list A) (body : A → IO unit) : IO unit :=
  match xs with
  | [] => ret tt
  | x :: xs' => body x ;; for_each xs' body
  end.

(** [for x in g: body(x)] over a generator: each round first resumes the
    generator, which yields, returns or raises. *)
Fixpoint for_gen {A} (g : gen A) (body : A → IO unit) : IO unit :=
  match g with
  | Done => emit ENext
  | Throw e => emit ENext ;; raise e
  | Yield a rest => emit ENext ;; body a ;; for_gen rest body
  end.

(** [",".join([str(float(number)) for number in sample]) + "\n"] *)
Definition line (sample : list F) : string :=
  String.concat "," (map str_float sample) +:+ nl.

(** The body of the inner loop: the shape check, then the line. *)
Definition write_sample (sample : list F) : IO unit :=
  assert (length sample =? 48) ;;
  write (line sample).

(** The body of the outer loop: every sample of the batch, then a flush. *)
Definition write_batch (batch : ndarray F) : IO unit :=
  for_each (cells batch) write_sample ;;
  flush.

(** [BaseEvaluator.evaluate] of an evaluator whose [predict] method is
    [predict]. *)
Definition evaluate (w : world)
    (predict : gmap string (list Row) → result (gen (ndarray F))) : IO unit :=
  with_open w (sink_path w) (
    write ("OK" +:+ nl) ;;
    flush ;;
    do path <- argv_get w 1;
    do features <- h5py_File w path;
    do batches <- lift (predict features);
    for_gen batches write_batch).

(** The text the sink has received: every [write], in order. *)
Fixpoint written (tr : list event) : list string :=
  match tr with
  | [] => []
  | EWrite s :: tr' => s :: written tr'
  | _ :: tr' => written tr'
  end.

(** The events that concern the sink. *)
Definition on_sink (ev : event) : bool :=
  match ev with
  | EOpenSink _ | EWrite _ | EFlush | ECloseSink => true
  | EOpenFeatures _ | ENext => false
  end.

(** *** Vocabulary of the statements about the live path *)

(** The batches [predict] yields on the file named on the command line;
    none when there is no such argument or no such file, or when the
    call of [predict] raises. *)
Definition input_batches (w : world)
    (predict : gmap string (list Row) → result (gen (ndarray F)))
    : list (ndarray F) :=
  match argv w !! 1 with
  | Some path =>
      match h5files w !! path with
      | Some features =>
          match predict features with
          | Ok batches => yielded batches
          | Raise _ => []
          end
      | None => []
      end
  | None => []
  end.

(** The samples that come before the first one whose length is not 48. *)
Fixpoint shaped_prefix (samples : list (list F)) : list (list F) :=
  match samples with
  | [] => []
  | sample :: rest =>
      if length sample =? 48 then sample :: shaped_prefix rest else []
  end.

(** What the sink sees of a batch written in full: one write per sample,
    then one flush. *)
Definition batch_events (batch : ndarray F) : list event :=
  map (fun sample => EWrite (line sample)) (cells batch) ++ [EFlush].

End Stream.
End Stream.

(** The number of occurrences of a character in a string. *)
Fixpoint count_char (c : ascii) (s : string) : nat :=
  match s with
  | EmptyString => 0
  | String c' s' => (if Ascii.eqb c c' then 1 else 0) + count_char c s'
  end.

(** ** The validation script: [validate.py] *)

Module Validate.
Section Validate.

Context {Row F : Type} `{Numeric F}.

(** The array NumPy makes of a series of the file when the series takes
    part in array arithmetic. *)
Context (asarray : list Row → ndarray F).

Definition DATA_PATH : string := "data/validation/data.hdf5".

(** The loop that accumulates the batches of [predict]. *)
Fixpoint collect (g : gen (ndarray F)) (predictions : list (ndarray F))
    : result (list (ndarray F)) :=
  match g with
  | Done => Ok predictions
  | Throw e => Raise e
  | Yield batch rest =>
      if ncols batch =? 48
      then collect rest (predictions ++ [batch])
      else Raise AssertionError
  end.

(** [main()]: what it prints, and how it ends.  [data_file] is the file
    at [DATA_PATH] when there is one; [Evaluator] is what [Evaluator()]
    gives, an exception or the [predict] method of the new evaluator.
    [print] renders the mean as [str] does.  The change of directory
    around the predictions is left out. *)
Definition main (data_file : option (gmap string (list Row)))
    (Evaluator : result (gmap string (list Row) → result (gen (ndarray F))))
    : list string * result unit :=
  match data_file with
  | None => (["Unable to load features at `" +:+ DATA_PATH +:+ "`"], Ok tt)
  | Some data =>
      match Evaluator with
      | Raise e => ([], Raise e)
      | Ok predict =>
          match predict data with
          | Raise e => ([], Raise e)
          | Ok batches =>
              match collect batches [] with
              | Raise e => ([], Raise e)
              | Ok predictions =>
                  match data !! "targets" with
                  | None => ([], Raise (KeyError "targets"))
                  | Some targets =>
                      match Numpy.concatenate predictions with
                      | Raise e => ([], Raise e)
                      | Ok predicted =>
                          match Numpy.subtract (asarray targets) predicted with
                          | Raise e => ([], Raise e)
                          | Ok difference =>
                              let mae :=
                                Numpy.mean (Numpy.np_absolute difference) in
                              (["MAE: " +:+ str_float mae], Ok tt)
                          end
                      end
                  end
              end
          end
      end
  end.

(** The mean absolute error in the words of the specification: the mean,
    over all samples and all their components, of the absolute
    difference between the target and the prediction; the mean of a list
    of numbers is NumPy's sum of them divided by how many they are. *)
Definition mean_abs_error (targets predictions : list (list F)) : F :=
  let errors :=
    concat (zip_with (zip_with (fun t p => absolute (sub t p)))
              targets predictions) in
  divide (add_reduce errors) (of_count (length errors)).

End Validate.
End Validate.

(** ** A concrete element type: binary64 *)

(** *** NumPy's sum of a contiguous array *)

Section Pairwise.

Context {F : Type} (plus : F → F → F) (nought : F).

(** The eight running sums after [groups] more groups of eight. *)
Fixpoint add_lanes (groups : nat) (r l : list F) : list F * list F :=
  match groups with
  | O => (r, l)
  | S groups' => add_lanes groups' (zip_with plus r (take 8 l)) (drop 8 l)
  end.

Definition combine_lanes (r : list F) : F :=
  match r with
  | [r0; r1; r2; r3; r4; r5; r6; r7] =>
      plus (plus (plus r0 r1) (plus r2 r3)) (plus (plus r4 r5) (plus r6 r7))
  | _ => nought
  end.

(** A block of 8 to 128 numbers: eight running sums over the groups of
    eight, put together two by two, then the numbers left over one by
    one. *)
Definition block_sum (l : list F) : F :=
  let '(r, rest) := add_lanes (length l / 8 - 1) (take 8 l) (drop 8 l) in
  foldl plus (combine_lanes r) rest.

(** [pairwise_sum]: fewer than 8 numbers are added from left to right
    starting from 0, up to 128 as a block, more by halves, the first half
    a multiple of 8 long.  [fuel] bounds the depth of the halving. *)
Fixpoint pairwise_sum (fuel : nat) (l : list F) : F :=
  let n := length l in
  if n <? 8 then foldl plus nought l
  else if n <=? 128 then block_sum l
  else
    match fuel with
    | O => block_sum l
    | S fuel' =>
        let half := n / 2 - (n / 2) mod 8 in
        plus (pairwise_sum fuel' (take half l)) (pairwise_sum fuel' (drop half l))
    end.

(** The reduction starts from 0 and adds the pairwise sum of the whole
    array to it.  The zero it starts from matters to the sign of a zero
    sum only, and not to a sum of absolute values, which is what the
    validation script adds up. *)
Definition pairwise_reduce (l : list F) : F :=
  plus nought (pairwise_sum (length l) l).

End Pairwise.

(** *** Python's rendering of a number *)

(** [k] times the character [c]. *)
Fixpoint repeat_char (c : ascii) (k : nat) : string :=
  match k with
  | O => EmptyString
  | S k' => String c (repeat_char c k')
  end.

(** [n] without its trailing decimal zeros. *)
Fixpoint strip_zeros (fuel : nat) (n : Z) : Z :=
  match fuel with
  | O => n
  | S fuel' =>
      if (0 <? n)%Z && (n mod 10 =? 0)%Z then strip_zeros fuel' (n / 10)%Z else n
  end.

(** The shortest decimal that reads back as the positive number
    [m * 2 ^ e] of binary64, and the closest to it among the shortest:
    its digits, as an integer without trailing zeros, and the position
    of the decimal point after them ([0.d1d2... * 10 ^ decpt]). *)
Module Shortest.
Section Shortest.

Variables (m : positive) (e : Z).

Definition num : Z := if (0 <=? e)%Z then (Z.pos m * 2 ^ e)%Z else Z.pos m.
Definition den : Z := if (0 <=? e)%Z then 1%Z else (2 ^ (- e))%Z.
Definition unit_ : Z := if (0 <=? e)%Z then (2 ^ e)%Z else 1%Z.

(** first of its binade: the number below is half as far as the one above *)
Definition boundary : bool := (Z.pos m =? 2 ^ 52)%Z && (-1074 <? e)%Z.

(** The number and the ends of the interval of the reals that round to
    it, all in units of [1 / (4 * den)]. *)
Definition scaled_x : Z := (4 * num)%Z.
Definition scaled_lo : Z := (scaled_x - (if boundary then 1 else 2) * unit_)%Z.
Definition scaled_hi : Z := (scaled_x + 2 * unit_)%Z.
Definition ends_included : bool := Z.even (Z.pos m).

(** [10 ^ k <= m * 2 ^ e] *)
Definition at_least_pow10 (k : Z) : bool :=
  if (0 <=? k)%Z then (den * 10 ^ k <=? num)%Z
  else (den <=? num * 10 ^ (- k))%Z.

Fixpoint raise_log10 (fuel : nat) (t : Z) : Z :=
  match fuel with
  | O => t
  | S fuel' => if at_least_pow10 (t + 1) then raise_log10 fuel' (t + 1)%Z else t
  end.

Fixpoint lower_log10 (fuel : nat) (t : Z) : Z :=
  match fuel with
  | O => t
  | S fuel' => if at_least_pow10 t then t else lower_log10 fuel' (t - 1)%Z
  end.

(** The integer part of the decimal logarithm. *)
Definition floor_log10 : Z :=
  let estimate := (((Z.log2 num + 1) - (Z.log2 den + 1)) * 1233 / 4096)%Z in
  lower_log10 8 (raise_log10 8 estimate).

(** [c * 10 ^ q] in units of [1 / (4 * den)], as a fraction. *)
Definition decimal (c q : Z) : Z * Z :=
  if (0 <=? q)%Z then (c * 10 ^ q * (4 * den), 1)%Z
  else (c * (4 * den), 10 ^ (- q))%Z.

Definition compare_decimal (c q a : Z) : comparison :=
  let '(n, d) := decimal c q in (n ?= a * d)%Z.

Fixpoint shortest_from (fuel : nat) (p : Z) (t : Z) : Z * Z :=
  let q := (t - (p - 1))%Z in
  let c1 := (if (0 <=? q)%Z then num / (den * 10 ^ q) else num * 10 ^ (- q) / den)%Z in
  let c2 := (c1 + 1)%Z in
  let ok1 := match compare_decimal c1 q scaled_lo with
             | Gt => true | Eq => ends_included | Lt => false end in
  let ok2 := match compare_decimal c2 q scaled_hi with
             | Lt => true | Eq => ends_included | Gt => false end in
  let nearest :=
    let '(n1, d) := decimal c1 q in
    let '(n2, _) := decimal c2 q in
    match (scaled_x * d - n1 ?= n2 - scaled_x * d)%Z with
    | Lt => c1
    | Gt => c2
    | Eq => if Z.even c1 then c1 else c2
    end in
  match fuel with
  | O => (nearest, q)
  | S fuel' =>
      if ok1 && ok2 then (nearest, q)
      else if ok1 then (c1, q)
      else if ok2 then (c2, q)
      else shortest_from fuel' (p + 1)%Z t
  end.

Definition shortest : Z * Z :=
  let '(c, q) := shortest_from 16 1 floor_log10 in
  (strip_zeros 20 c, Z.of_nat (String.length (pretty c)) + q)%Z.

End Shortest.
End Shortest.

(** [str(float(x))]: Python's [repr] of a binary64 number, the shortest
    decimal that reads back as the number, in positional notation or, for
    a decimal point at or before the fourth leading zero or after the
    sixteenth digit, with an exponent. *)
Definition float_str (x : float) : string :=
  match Prim2SF x with
  | S754_zero s => if s then "-0.0" else "0.0"
  | S754_infinity s => if s then "-inf" else "inf"
  | S754_nan => "nan"
  | S754_finite s m e =>
      let '(c, decpt) := Shortest.shortest m e in
      let digits := pretty c in
      let n := String.length digits in
      let sign := if s then "-" else "" in
      if (decpt <=? -4)%Z || (16 <? decpt)%Z then
        let ex := (decpt - 1)%Z in
        let mantissa :=
          String.substring 0 1 digits +:+
          (if 1 <? n then "." +:+ String.substring 1 (n - 1) digits else "") in
        sign +:+ mantissa +:+ "e" +:+ (if (ex <? 0)%Z then "-" else "+") +:+
        (if (Z.abs ex <? 10)%Z then "0" else "") +:+ pretty (Z.abs ex)
      else if (decpt <=? 0)%Z then
        sign +:+ "0." +:+ repeat_char "0" (Z.to_nat (- decpt)) +:+ digits
      else if (Z.of_nat n <=? decpt)%Z then
        sign +:+ digits +:+ repeat_char "0" (Z.to_nat decpt - n) +:+ ".0"
      else
        sign +:+ String.substring 0 (Z.to_nat decpt) digits +:+ "." +:+
        String.substring (Z.to_nat decpt) (n - Z.to_nat decpt) digits
  end.

#[export] Instance float_numeric : Numeric float := {
  zero := 0%float;
  add := PrimFloat.add;
  sub := PrimFloat.sub;
  absolute := PrimFloat.abs;
  divide := PrimFloat.div;
  add_reduce := pairwise_reduce PrimFloat.add 0%float;
  of_count := fun n => PrimFloat.of_uint63 (Uint63.of_Z (Z.of_nat n));
  str_float := float_str
}.

(** ** Measures used by the statements *)

(** [len(batch[0])]: the number of rows of a batch, read off its first
    slice. *)
Definition batch_rows {Row} (b : list (list Row)) : nat :=
  match b with
  | s :: _ => length s
  | [] => 0
  end.

(** ** Sample data *)

(** A feature file with two series of 100 samples; a row is identified
    by a number. *)
Definition sample_features : gmap string (list nat) :=
  <["pv" := seq 0 100]> (<["hrv" := seq 1000 100]> ∅).

(** The same file with an [hrv] series of 50 samples only. *)
Definition ragged_features : gmap string (list nat) :=
  <["pv" := seq 0 100]> (<["hrv" := seq 1000 50]> ∅).

(** A series of binary64 rows as an array of 48 columns: the [targets]
    series of the validation file. *)
Definition targets_asarray (rows : list (list float)) : ndarray float :=
  mk_ndarray 48 rows.

(** A network that predicts 0.0 everywhere: one row of 48 zeros per [pv]
    row. *)
Definition zero_model : Run.Model (Row := list float) (F := float) :=
  fun pv hrv => Ok (mk_ndarray 48 (map (fun _ => replicate 48 0%float) pv)).

(** A network that returns rows of 47 numbers. *)
Definition short_model : Run.Model (Row := list float) (F := float) :=
  fun pv hrv => Ok (mk_ndarray 47 (map (fun _ => replicate 47 0.5%float) pv)).

(** A validation file of [n] samples: [pv] rows of 12 numbers, [hrv] rows
    cut down to 4 numbers, and [m] rows of all-zero targets. *)
Definition validation_file (n m : nat) : gmap string (list (list float)) :=
  <["pv" := replicate n (replicate 12 0.5%float)]>
    (<["hrv" := replicate n (replicate 4 0.25%float)]>
       (<["targets" := replicate m (replicate 48 0%float)]> ∅)).

(** A process started as [run.py features.hdf5] in a directory where
    [out] can be written and [features.hdf5] holds three samples. *)
Definition live_world : Stream.world (Row := list float) :=
  Stream.mk_world ∅ ["run.py"; "features.hdf5"] (fun _ => true)
    {[ "features.hdf5" := validation_file 3 0 ]}.

(** The same process when [features.hdf5] does not exist. *)
Definition lost_world : Stream.world (Row := list float) :=
  Stream.mk_world ∅ ["run.py"; "features.hdf5"] (fun _ => true) ∅.

(** ** The script of [submission/run.py] *)

(** [Evaluator().evaluate()]: the evaluator is built, which runs [setup],
    and only then is the live path entered. *)
Definition run_main {Row F : Type} `{Numeric F} (w : Stream.world (Row := Row))
    (model_pt : option (Run.Model (Row := Row) (F := F))) : IO unit :=
  match Run.Evaluator model_pt with
  | Ok predict => Stream.evaluate w predict
  | Raise e => ([], Raise e)
  end.

(** ** The network of [submission/model.py], by shapes *)

(** What a tensor operation does to the shape of its argument; the
    values are left out.  An image batch has the shape [(N, C, H, W)], a
    batch of vectors the shape [(N, L)].  Every refusal is a
    [RuntimeError]; its text is shortened here. *)
Module Model.

Definition shape4 : Type := (N * N * N * N)%type.
Definition shape2 : Type := (N * N)%type.

Definition and_then {A B} (r : result A) (k : A → result B) : result B :=
  match r with
  | Ok a => k a
  | Raise e => Raise e
  end.

(** [nn.Conv2d(in_channels, out_channels, kernel_size)]: stride 1, no
    padding. *)
Definition Conv2d (in_channels out_channels kernel_size : N) (x : shape4)
    : result shape4 :=
  let '(n, c, h, w) := x in
  if negb (c =? in_channels)%N
  then Raise (RuntimeError "expected input to have in_channels channels")
  else if (h <? kernel_size)%N || (w <? kernel_size)%N
  then Raise (RuntimeError "Kernel size can't be greater than actual input size")
  else Ok (n, out_channels, h - kernel_size + 1, w - kernel_size + 1)%N.

(** [nn.MaxPool2d(kernel_size)]: the stride is the kernel size, the last
    incomplete window is dropped. *)
Definition MaxPool2d (kernel_size : N) (x : shape4) : result shape4 :=
  let '(n, c, h, w) := x in
  if (h <? kernel_size)%N || (w <? kernel_size)%N
  then Raise (RuntimeError "Output size is too small")
  else Ok (n, c, (h - kernel_size) / kernel_size + 1,
                 (w - kernel_size) / kernel_size + 1)%N.

(** [torch.relu] and [torch.sigmoid] work element by element. *)
Definition relu (x : shape4) : shape4 := x.
Definition sigmoid (x : shape2) : shape2 := x.

(** [nn.Flatten()]: every axis but the first is merged. *)
Definition Flatten (x : shape4) : shape2 :=
  let '(n, c, h, w) := x in (n, c * h * w)%N.

(** [torch.concat((x, y), dim=-1)] *)
Definition concat (x y : shape2) : result shape2 :=
  if (fst x =? fst y)%N
  then Ok (fst x, snd x + snd y)%N
  else Raise (RuntimeError "Sizes of tensors must match except in dimension 1").

(** [nn.Linear(in_features, out_features)] *)
Definition Linear (in_features out_features : N) (x : shape2)
    : result shape2 :=
  if (snd x =? in_features)%N
  then Ok (fst x, out_features)
  else Raise (RuntimeError "mat1 and mat2 shapes cannot be multiplied").

(** The layers of [Model.__init__]. *)
Definition conv1 := Conv2d 12 24 3.
Definition conv2 := Conv2d 24 48 3.
Definition conv3 := Conv2d 48 96 3.
Definition conv4 := Conv2d 96 192 3.
Definition pool := MaxPool2d 2.
Definition flatten := Flatten.
Definition linear1 := Linear 6924 48.

(** [Model.forward(pv, hrv)] *)
Definition forward (pv : shape2) (hrv : shape4) : result shape2 :=
  and_then (conv1 hrv) (fun x =>
  and_then (pool x) (fun x =>
  let x := relu x in
  and_then (conv2 x) (fun x =>
  and_then (pool x) (fun x =>
  let x := relu x in
  and_then (conv3 x) (fun x =>
  and_then (pool x) (fun x =>
  let x := relu x in
  and_then (conv4 x) (fun x =>
  and_then (pool x) (fun x =>
  let x := relu x in
  let x := flatten x in
  and_then (concat x pv) (fun x =>
  and_then (linear1 x) (fun x =>
  Ok (sigmoid x))))))))))).

(** The side of an image after the four rounds of convolution and
    pooling. *)
Definition reduced (h : N) : N :=
  ((((((((h - 2) / 2) - 2) / 2) - 2) / 2) - 2) / 2)%N.

End Model.

(** ** More vocabulary and sample data *)

Definition is_flush (ev : event) : bool :=
  match ev with
  | EFlush => true
  | _ => false
  end.

Definition opens_or_closes (ev : event) : bool :=
  match ev with
  | EOpenSink _ | ECloseSink => true
  | _ => false
  end.

(** The window of [width] rows that starts at row [j * width]. *)
Definition window {A} (width j : nat) (l : list A) : list A :=
  take width (drop (j * width) l).

(** The network answers batch [j] of the file with one row of 48 numbers
    per [pv] row of the batch. *)
Definition answers_batch {Row F : Type} (model : Run.Model (Row := Row) (F := F))
    (features : gmap string (list Row)) (j : nat) : Prop :=
  ∃ y, model (window 32 j (features !!! "pv")) (window 32 j (features !!! "hrv"))
       = Ok y
       ∧ nrows y = length (window 32 j (features !!! "pv"))
       ∧ Forall (fun sample => length sample = 48) (cells y).

(** A network that, like the one of [model.py], refuses a batch whose
    [pv] and [hrv] slices differ in length, and answers the others with
    zeros. *)
Definition matching_model : Run.Model (Row := list float) (F := float) :=
  fun pv hrv =>
    if length pv =? length hrv
    then Ok (mk_ndarray 48 (map (fun _ => replicate 48 0%float) pv))
    else Raise (RuntimeError "Sizes of tensors must match except in dimension 1").

(** The number of binary64 that [0.1] denotes. *)
Definition tenth : float := 0x1.999999999999ap-4%float.

(** A validation file of [n] samples whose targets are all [target]. *)
Definition constant_targets_file (n : nat) (target : float)
    : gmap string (list (list float)) :=
  <["pv" := replicate n (replicate 12 0.5%float)]>
    (<["hrv" := replicate n (replicate 4 0.25%float)]>
       (<["targets" := replicate n (replicate 48 target)]> ∅)).

(** A network that cannot cope with a batch of fewer than 32 rows. *)
Definition full_batch_model : Run.Model (Row := list float) (F := float) :=
  fun pv hrv =>
    if length pv <? 32
    then Raise (RuntimeError "batch too small")
    else Ok (mk_ndarray 48 (map (fun _ => replicate 48 0%float) pv)).

(** A file of [n] samples without the [hrv] series. *)
Definition pv_only_file (n : nat) : gmap string (list (list float)) :=
  <["pv" := replicate n (replicate 12 0.5%float)]> ∅.

(** A process whose feature file holds 40 samples. *)
Definition long_world : Stream.world (Row := list float) :=
  Stream.mk_world ∅ ["run.py"; "features.hdf5"] (fun _ => true)
    {[ "features.hdf5" := validation_file 40 0 ]}.

(** A process whose feature file lacks the [hrv] series. *)
Definition pv_only_world : Stream.world (Row := list float) :=
  Stream.mk_world ∅ ["run.py"; "features.hdf5"] (fun _ => true)
    {[ "features.hdf5" := pv_only_file 3 ]}.

(** The answers of [zero_model] to the batches of a [pv] series. *)
Definition zero_answer (pv : list (list float)) (j : nat) : ndarray float :=
  mk_ndarray 48 (map (fun _ => replicate 48 0%float) (window 32 j pv)).

(** * Properties *)

(** ** Built-ins *)

Lemma ceil_div_bounds (n d : Z) :
  (0 < d)%Z → ((ceil_div n d - 1) * d < n ≤ ceil_div n d * d)%Z.
Proof.
  intros Hd. unfold ceil_div.
  pose proof (Z.div_mod (n + d - 1) d ltac:(lia)) as Hdm.
  pose proof (Z.mod_pos_bound (n + d - 1) d Hd) as Hb.
  nia.
Qed.

Lemma ceil_div_nat (n s : nat) :
  0 < s → Z.of_nat ((n + s - 1) / s) = ceil_div (Z.of_nat n) (Z.of_nat s).
Proof.
  intros Hs. unfold ceil_div. rewrite Nat2Z.inj_div. f_equal. lia.
Qed.

Lemma range_from_eq (fuel i stop step : nat) :
  0 < step → stop ≤ i + fuel →
  range_from fuel i stop step
  = map (fun k => i + k * step) (seq 0 ((stop - i + step - 1) / step)).
Proof.
  intros Hstep. revert i. induction fuel as [|fuel IH]; intros i Hfuel; simpl.
  - replace (stop - i + step - 1) with (step - 1) by lia.
    rewrite Nat.div_small by lia. reflexivity.
  - destruct (Nat.ltb_spec i stop) as [Hlt|Hge].
    + destruct (decide (i + step ≤ stop)) as [Hfull|Hpart].
      * replace (stop - i + step - 1)
          with (1 * step + (stop - (i + step) + step - 1)) by lia.
        rewrite Nat.div_add_l by lia. simpl.
        rewrite IH by lia. f_equal; [lia|].
        rewrite <- List.seq_shift, List.map_map.
        apply List.map_ext. intros k. lia.
      * replace (stop - i + step - 1) with (1 * step + (stop - i - 1)) by lia.
        rewrite Nat.div_add_l, (Nat.div_small (stop - i - 1)) by lia.
        simpl. f_equal; [lia|]. rewrite IH by lia.
        replace (stop - (i + step) + step - 1) with (step - 1) by lia.
        rewrite Nat.div_small by lia. reflexivity.
    + replace (stop - i + step - 1) with (step - 1) by lia.
      rewrite Nat.div_small by lia. reflexivity.
Qed.

Lemma clip_index_nat (len i : nat) : clip_index len (Z.of_nat i) = Nat.min i len.
Proof.
  unfold clip_index. destruct (Z.ltb_spec (Z.of_nat i) 0); lia.
Qed.

Lemma clip_index_nonneg (len : nat) (z : Z) :
  (0 ≤ z)%Z → clip_index len z = Nat.min (Z.to_nat z) len.
Proof.
  intros Hz. unfold clip_index. destruct (Z.ltb_spec z 0); lia.
Qed.

(** With a start inside [0 ..] and a positive width, the Python slice is
    the window of that width taken after dropping [i] rows. *)
Lemma py_slice_window {A} (l : list A) (i : nat) (width : Z) :
  (0 < width)%Z →
  py_slice l (Z.of_nat i) (Z.of_nat i + width) = take (Z.to_nat width) (drop i l).
Proof.
  intros Hw. unfold py_slice.
  rewrite clip_index_nat, clip_index_nonneg by lia.
  destruct (decide (length l ≤ i)) as [Hout|Hin].
  - rewrite !drop_ge by lia. by rewrite !take_nil.
  - replace (Nat.min i (length l)) with i by lia.
    destruct (decide (Z.to_nat (Z.of_nat i + width) ≤ length l)).
    + f_equal. lia.
    + rewrite !take_ge; [done | rewrite length_drop; lia | rewrite length_drop; lia].
Qed.

Lemma length_window {A} (l : list A) (i n : nat) :
  length (take n (drop i l)) = Nat.min n (length l - i).
Proof. by rewrite length_take, length_drop. Qed.

Lemma lookup_window {A} (l : list A) (i n k : nat) :
  k < n → take n (drop i l) !! k = l !! (i + k).
Proof. intros Hk. by rewrite lookup_take_lt, lookup_drop. Qed.

(** ** The batcher *)

Create HintDb reads.

Section BatcherProperties.

Context {Row : Type}.
Implicit Types (features fs : gmap string (list Row)) (variables : list string).

Import Batcher.

Lemma reads_ret {A} (a : A) : reads (Row := Row) (ret a).
Proof. done. Qed.

Lemma reads_raise {A} e : reads (Row := Row) (raise (A := A) e).
Proof. done. Qed.

Lemma reads_lift {A} (r : result A) : reads (Row := Row) (lift r).
Proof. done. Qed.

Lemma reads_bind {A B} (m : M A) (k : A → M B) :
  reads (Row := Row) m → (∀ a, reads (k a)) → reads (bind m k).
Proof.
  intros Hm Hk σ. unfold bind. specialize (Hm σ).
  destruct (m σ) as [[a|e] σ']; simpl in *; subst; [apply Hk | done].
Qed.

Lemma reads_contains v : reads (Row := Row) (contains v).
Proof. done. Qed.

Lemma reads_getitem v : reads (Row := Row) (getitem v).
Proof. intros σ. unfold getitem. by destruct (σ !! v). Qed.

Lemma reads_assert b : reads (Row := Row) (assert b).
Proof. by destruct b. Qed.

Lemma reads_dict_get {B} (d : gmap string B) k : reads (Row := Row) (dict_get d k).
Proof. unfold dict_get. by destruct (d !! k). Qed.

Lemma reads_for_each {A} (xs : list A) body :
  (∀ x, reads (Row := Row) (body x)) → reads (for_each xs body).
Proof.
  intros Hb. induction xs as [|x xs IH]; simpl; [apply reads_ret|].
  apply reads_bind; auto.
Qed.

Lemma reads_list_comp {A B} (xs : list A) (f : A → M B) :
  (∀ x, reads (Row := Row) (f x)) → reads (list_comp xs f).
Proof.
  intros Hf. induction xs as [|x xs IH]; simpl; [apply reads_ret|].
  apply reads_bind; [done|]. intros b.
  apply reads_bind; [done|]. intros bs. apply reads_ret.
Qed.

Lemma reads_dict_comp {B} (xs : list string) (f : string → M B) acc :
  (∀ x, reads (Row := Row) (f x)) → reads (dict_comp xs f acc).
Proof.
  intros Hf. revert acc. induction xs as [|x xs IH]; intros acc; simpl;
    [apply reads_ret|].
  apply reads_bind; [done|]. intros b. apply IH.
Qed.

Lemma yield_for_reads {A B} (xs : list A) (body : A → M B) σ :
  (∀ x, reads (Row := Row) (body x)) → snd (yield_for xs body σ) = σ.
Proof.
  intros Hb. revert σ. induction xs as [|x xs IH]; intros σ; simpl; [done|].
  specialize (Hb x σ) as Hx.
  destruct (body x σ) as [[b|e] σ']; simpl in *; subst; [|done].
  specialize (IH σ). by destruct (yield_for xs body σ).
Qed.

#[local] Hint Resolve reads_ret reads_raise reads_lift reads_contains reads_getitem
  reads_assert reads_dict_get : reads.

Lemma batch_reads variables batch_size features :
  snd (batch variables batch_size features) = features.
Proof.
  unfold batch.
  match goal with |- context [match ?p features with _ => _ end] =>
    assert (reads p) as Hp; [| specialize (Hp features); destruct (p features) as [[[ds idx]|e] σ] ]
  end.
  - destruct variables as [|v0 vs]; [auto with reads|].
    apply reads_bind.
    { apply reads_for_each. intros v. apply reads_bind; auto with reads. }
    intros _. apply reads_bind.
    { apply reads_dict_comp. auto with reads. }
    intros ds. apply reads_bind; [auto with reads|]. intros first.
    apply reads_bind; auto with reads.
  - simpl in Hp. subst σ. apply yield_for_reads.
    intros i. apply reads_list_comp. intros v.
    apply reads_bind; auto with reads.
  - done.
Qed.

Lemma check_present_ok features variables :
  all_present features variables →
  for_each variables (fun v => bind (contains v) (fun b => assert b)) features
  = (Ok tt, features).
Proof.
  induction 1 as [|v vs Hv _ IH]; [done|].
  simpl. unfold bind at 1 2, contains. simpl.
  rewrite bool_decide_eq_true_2 by done. simpl. exact IH.
Qed.

Lemma check_present_fail features variables :
  ¬ all_present features variables →
  for_each variables (fun v => bind (contains v) (fun b => assert b)) features
  = (Raise AssertionError, features).
Proof.
  intros Hno. apply not_Forall_Exists in Hno; [|apply _].
  induction Hno as [v vs Hv|v vs _ IH].
  - simpl. unfold bind at 1 2, contains. simpl.
    by rewrite bool_decide_eq_false_2.
  - simpl. unfold bind at 1 2, contains. simpl.
    destruct (bool_decide (is_Some (features !! v))); simpl; [exact IH|done].
Qed.

(** The dictionary comprehension copies the entries of the file. *)
Lemma dict_comp_getitem features variables acc :
  all_present features variables →
  ∃ datasets,
    dict_comp variables getitem acc features = (Ok datasets, features)
    ∧ ∀ v, datasets !! v
           = if decide (v ∈ variables) then features !! v else acc !! v.
Proof.
  intros Hall. revert acc.
  induction Hall as [|v vs [d Hd] _ IH]; intros acc.
  - exists acc. split; [done|]. intros v. case_decide as Hin; [|done].
    by apply elem_of_nil in Hin.
  - destruct (IH (<[v := d]> acc)) as (ds & Hrun & Hds).
    exists ds. split.
    + simpl. unfold bind at 1, getitem. rewrite Hd. exact Hrun.
    + intros u. rewrite Hds.
      destruct (decide (u ∈ vs)) as [Hin|Hnin].
      * rewrite decide_True; [done | by right].
      * destruct (decide (u = v)) as [->|Hne].
        -- rewrite decide_True by left. by rewrite lookup_insert_eq.
        -- rewrite decide_False.
           ++ by rewrite lookup_insert_ne.
           ++ intros [?|?]%elem_of_cons; done.
Qed.

Lemma list_comp_pure {A B} (xs : list A) (f : A → M B) (g : A → B) fs :
  (∀ x, x ∈ xs → f x fs = (Ok (g x), fs)) →
  list_comp xs f fs = (Ok (map g xs), fs).
Proof.
  induction xs as [|x xs IH]; intros Hf; [done|].
  simpl. unfold bind at 1. rewrite Hf by left.
  unfold bind at 1. rewrite IH; [done|]. intros y Hy. apply Hf. by right.
Qed.

Lemma yield_for_pure {A B} (xs : list A) (body : A → M B) (g : A → B) fs :
  (∀ x, body x fs = (Ok (g x), fs)) →
  yield_for xs body fs = (yield_all (map g xs), fs).
Proof.
  intros Hb. induction xs as [|x xs IH]; [done|].
  simpl. rewrite Hb, IH. done.
Qed.

(** *** What [batch] computes, case by case *)

Lemma batch_missing features variables batch_size :
  variables ≠ [] → ¬ all_present features variables →
  batch variables batch_size features = (Throw AssertionError, features).
Proof.
  intros Hne Hno. unfold batch.
  destruct variables as [|v0 vs]; [done|].
  cbv zeta. unfold bind at 1.
  by rewrite (check_present_fail features (v0 :: vs) Hno).
Qed.

Lemma batch_present features v0 vs batch_size :
  all_present features (v0 :: vs) →
  batch (v0 :: vs) batch_size features
  = (match py_range (length (features !!! v0)) batch_size with
     | Raise e => Throw e
     | Ok indices =>
         yield_all
           (map (fun i =>
                   map (fun v =>
                          py_slice (features !!! v) (Z.of_nat i)
                            (Z.of_nat i + batch_size))
                     (v0 :: vs))
              indices)
     end, features).
Proof.
  intros Hall. unfold batch. cbv zeta.
  unfold bind at 1.
  rewrite (check_present_ok features (v0 :: vs) Hall).
  destruct (dict_comp_getitem features (v0 :: vs) ∅ Hall) as (ds & Hrun & Hds).
  unfold bind at 1. rewrite Hrun.
  assert (∀ v, v ∈ v0 :: vs → ds !! v = Some (features !!! v)) as Hget.
  { intros v Hv. rewrite Hds, decide_True by done.
    unfold all_present in Hall. rewrite Forall_forall in Hall.
    destruct (Hall v Hv) as [d Hd].
    rewrite Hd. f_equal. symmetry. by apply lookup_total_correct. }
  unfold bind at 1, dict_get at 1. rewrite Hget by left.
  unfold ret at 1. unfold bind at 1, lift.
  destruct (py_range _ batch_size) as [indices|e]; [|done].
  unfold ret at 1.
  apply yield_for_pure. intros i.
  apply list_comp_pure. intros v Hv.
  unfold bind, dict_get. by rewrite Hget.
Qed.

Lemma py_range_positive (stop : nat) (step : Z) :
  (0 < step)%Z →
  py_range stop step
  = Ok (map (fun k => k * Z.to_nat step)
          (seq 0 (Z.to_nat (ceil_div (Z.of_nat stop) step)))).
Proof.
  intros Hs. destruct step as [|p|p]; [lia| |lia].
  unfold py_range. rewrite range_from_eq by lia.
  rewrite Nat.sub_0_r.
  replace ((stop + Pos.to_nat p - 1) / Pos.to_nat p)
    with (Z.to_nat (ceil_div (Z.of_nat stop) (Z.pos p))).
  - done.
  - rewrite <- (positive_nat_Z p) at 1. rewrite <- ceil_div_nat by lia. lia.
Qed.

Lemma map_is_fmap {A B} (f : A → B) (l : list A) : map f l = f <$> l.
Proof. done. Qed.

Lemma yielded_yield_all {A} (l : list A) : yielded (yield_all l) = l.
Proof. induction l; simpl; congruence. Qed.

Lemma outcome_yield_all {A} (l : list A) : outcome (yield_all l) = Ok tt.
Proof. induction l; simpl; congruence. Qed.

(** The windows of width [s] over a series, by number. *)
Lemma batch_windows features v0 vs batch_size :
  all_present features (v0 :: vs) → (0 < batch_size)%Z →
  batch (v0 :: vs) batch_size features
  = (yield_all
       (map (fun j =>
               map (fun v =>
                      take (Z.to_nat batch_size)
                        (drop (j * Z.to_nat batch_size) (features !!! v)))
                 (v0 :: vs))
          (seq 0 (Z.to_nat (ceil_div (Z.of_nat (length (features !!! v0)))
                              batch_size)))),
     features).
Proof.
  intros Hall Hpos. rewrite batch_present by done.
  rewrite py_range_positive by done. f_equal. f_equal.
  rewrite List.map_map. apply List.map_ext. intros j.
  apply List.map_ext. intros v. by rewrite py_slice_window.
Qed.

Lemma batch_nonpositive features variables batch_size :
  (batch_size ≤ 0)%Z → yielded (fst (batch variables batch_size features)) = [].
Proof.
  intros Hneg. destruct variables as [|v0 vs]; [done|].
  destruct (decide (all_present features (v0 :: vs))) as [Hall|Hno].
  - rewrite batch_present by done. simpl.
    destruct batch_size; [done | lia | done].
  - by rewrite batch_missing.
Qed.

Lemma sum_windows (N s n : nat) :
  sum_list (map (fun j => Nat.min s (N - j * s)) (seq 0 n)) = Nat.min N (n * s).
Proof.
  induction n as [|n IH]; [simpl; lia|].
  rewrite seq_S, List.map_app, sum_list_with_app, IH. simpl. lia.
Qed.

Lemma window_count_bounds (N : nat) (batch_size : Z) :
  (0 < batch_size)%Z →
  let s := Z.to_nat batch_size in
  let n := Z.to_nat (ceil_div (Z.of_nat N) batch_size) in
  (n - 1) * s < N ∨ N = 0 ∧ n = 0.
Proof.
  intros Hpos s n.
  pose proof (ceil_div_bounds (Z.of_nat N) batch_size Hpos) as [Hlo Hhi].
  destruct (decide (N = 0)) as [->|HN].
  - right. split; [done|]. subst n. unfold ceil_div in *.
    simpl. rewrite Z.div_small; lia.
  - left. subst s n. nia.
Qed.

Lemma window_count_covers (N : nat) (batch_size : Z) :
  (0 < batch_size)%Z →
  N ≤ Z.to_nat (ceil_div (Z.of_nat N) batch_size) * Z.to_nat batch_size.
Proof.
  intros Hpos.
  pose proof (ceil_div_bounds (Z.of_nat N) batch_size Hpos) as [Hlo Hhi]. nia.
Qed.

(** C1: when the requested series all have N samples, the variable list
    is not empty and is present in the file, and the batch size is
    positive, the batcher yields ceil(N / batch_size) batches and then
    returns; batch j holds, for each variable, the rows of the window
    [j * batch_size, j * batch_size + batch_size) that exist; every batch
    but the last has batch_size rows, the last has the rows that remain
    (at least one, no padding); the row counts add up to N. *)
Theorem batch_count_and_sizes features variables batch_size (N : nat) :
  variables ≠ [] →
  (∀ v, v ∈ variables → ∃ d, features !! v = Some d ∧ length d = N) →
  (0 < batch_size)%Z →
  ∃ batches,
    fst (batch variables batch_size features) = yield_all batches
    ∧ Z.of_nat (length batches) = ceil_div (Z.of_nat N) batch_size
    ∧ (∀ j b, batches !! j = Some b →
         b = map (fun v =>
                    take (Z.to_nat batch_size)
                      (drop (j * Z.to_nat batch_size) (features !!! v)))
               variables
         ∧ Forall (fun s => length s = batch_rows b) b
         ∧ batch_rows b
           = (if decide (S j < length batches)
              then Z.to_nat batch_size
              else N - j * Z.to_nat batch_size)
         ∧ 1 ≤ batch_rows b ≤ Z.to_nat batch_size)
    ∧ sum_list (map batch_rows batches) = N.
Proof.
  intros Hne Hlen Hpos.
  destruct variables as [|v0 vs]; [done|]. clear Hne.
  assert (all_present features (v0 :: vs)) as Hall.
  { apply Forall_forall. intros v Hv. destruct (Hlen v Hv) as (d & -> & _). eauto. }
  assert (∀ v, v ∈ v0 :: vs → length (features !!! v) = N) as HN.
  { intros v Hv. destruct (Hlen v Hv) as (d & Hd & <-).
    by rewrite (lookup_total_correct _ _ _ Hd). }
  rewrite batch_windows by done. rewrite HN by left.
  set (s := Z.to_nat batch_size).
  set (n := Z.to_nat (ceil_div (Z.of_nat N) batch_size)).
  pose proof (window_count_bounds N batch_size Hpos) as Hlo.
  pose proof (window_count_covers N batch_size Hpos) as Hhi.
  fold s n in Hlo, Hhi. simpl in Hlo.
  assert (0 < s) as Hs by (subst s; lia).
  set (W := fun j => map (fun v => take s (drop (j * s) (features !!! v)))
                        (v0 :: vs)).
  assert (∀ j, batch_rows (W j) = Nat.min s (N - j * s)) as Hrows.
  { intros j. unfold W. simpl. rewrite length_window, HN by left. done. }
  exists (map W (seq 0 n)). split; [reflexivity|]. split; [|split].
  - rewrite length_map, length_seq. subst n.
    pose proof (ceil_div_bounds (Z.of_nat N) batch_size Hpos). lia.
  - intros j b Hb. rewrite map_is_fmap, list_lookup_fmap in Hb.
    destruct (seq 0 n !! j) as [j'|] eqn:Hj; [|done].
    apply lookup_seq in Hj as [-> Hj].
    change (Some (W j) = Some b) in Hb. injection Hb as <-.
    split; [done|].
    rewrite length_map, length_seq, Hrows. split; [|split].
    + apply Forall_forall. intros sl Hsl. unfold W in Hsl.
      rewrite map_is_fmap in Hsl.
      apply list_elem_of_fmap in Hsl as (v & -> & Hv).
      by rewrite length_window, HN.
    + case_decide; nia.
    + nia.
  - rewrite List.map_map.
    rewrite (List.map_ext _ (fun j => Nat.min s (N - j * s))) by apply Hrows.
    rewrite sum_windows. lia.
Qed.

(** C2: in the batch the batcher yields at position j, the slice of every
    requested variable is that variable's series cut at the same window
    [j * batch_size, j * batch_size + batch_size), so that its row k is
    row j * batch_size + k of the series, whatever the variable. *)
Theorem batch_alignment features variables batch_size (j : nat) b :
  yielded (fst (batch variables batch_size features)) !! j = Some b →
  length b = length variables
  ∧ ∀ p v, variables !! p = Some v →
      ∃ d s,
        features !! v = Some d
        ∧ b !! p = Some s
        ∧ s = py_slice d (Z.of_nat j * batch_size)
                (Z.of_nat j * batch_size + batch_size)
        ∧ ∀ k, k < length s → s !! k = d !! (j * Z.to_nat batch_size + k).
Proof.
  intros Hb.
  destruct (Z_lt_le_dec 0 batch_size) as [Hpos|Hneg].
  2:{ by rewrite batch_nonpositive in Hb. }
  destruct variables as [|v0 vs]; [done|].
  destruct (decide (all_present features (v0 :: vs))) as [Hall|Hno].
  2:{ by rewrite batch_missing in Hb. }
  rewrite batch_windows in Hb by done. simpl fst in Hb.
  rewrite yielded_yield_all, map_is_fmap, list_lookup_fmap in Hb.
  destruct (seq 0 _ !! j) as [j'|] eqn:Hj; [|done].
  apply lookup_seq in Hj as [-> Hj]. simpl in Hj.
  set (s := Z.to_nat batch_size) in *.
  set (W := map (fun v => take s (drop (j * s) (features !!! v))) (v0 :: vs)).
  change (Some W = Some b) in Hb. injection Hb as <-.
  split; [apply length_map|].
  intros p v Hp.
  unfold all_present in Hall. rewrite Forall_forall in Hall.
  destruct (Hall v) as [d Hd]; [by eapply list_elem_of_lookup_2|].
  exists d, (take s (drop (j * s) d)).
  split; [done|]. split; [|split].
  - unfold W. rewrite map_is_fmap, list_lookup_fmap, Hp. simpl.
    by rewrite (lookup_total_correct _ _ _ Hd).
  - replace (Z.of_nat j * batch_size)%Z with (Z.of_nat (j * s)) by (subst s; lia).
    by rewrite py_slice_window.
  - intros k Hk. rewrite length_window in Hk.
    apply lookup_window. lia.
Qed.

(** C3: when some requested variable is not in the file, the first step
    of the batcher's generator is the failed assertion (the
    specification's [MissingVariableError]): no batch is yielded. *)
Theorem batch_missing_variable features variables batch_size :
  (∃ v, v ∈ variables ∧ features !! v = None) →
  fst (batch variables batch_size features) = Throw AssertionError
  ∧ yielded (fst (batch variables batch_size features)) = [].
Proof.
  intros (v & Hv & Hnone).
  rewrite batch_missing; [done| |].
  - intros ->. by apply elem_of_nil in Hv.
  - intros Hall. unfold all_present in Hall. rewrite Forall_forall in Hall.
    destruct (Hall v Hv) as [d Hd]. congruence.
Qed.

(** C8: a second run of the batcher, on the file as the first run left
    it and with the same arguments, yields the same batches in the same
    order and ends the same way; the file after either run is the file
    before it. *)
Theorem batch_idempotent features variables batch_size :
  snd (batch variables batch_size features) = features
  ∧ batch variables batch_size (snd (batch variables batch_size features))
    = batch variables batch_size features.
Proof.
  rewrite !batch_reads. done.
Qed.

(** C9: with a positive batch size and every requested variable in the
    file, the batcher raises nothing and yields ceil(len(first) /
    batch_size) batches, where first is the series of the first requested
    variable, whatever the lengths of the others; the slice of a variable
    in batch j has min(batch_size, len(series) - j * batch_size) rows
    (none when that is negative), so a variable whose series is shorter
    than the first never has more rows than the first variable's slice,
    and has fewer in the last batch. *)
Theorem batch_unequal_lengths features v0 vs batch_size :
  all_present features (v0 :: vs) →
  (0 < batch_size)%Z →
  ∃ batches,
    fst (batch (v0 :: vs) batch_size features) = yield_all batches
    ∧ Z.of_nat (length batches)
      = ceil_div (Z.of_nat (length (features !!! v0))) batch_size
    ∧ ∀ p v, (v0 :: vs) !! p = Some v →
        (∀ j b, batches !! j = Some b →
           length (b !!! p)
           = Nat.min (Z.to_nat batch_size)
               (length (features !!! v) - j * Z.to_nat batch_size))
        ∧ (length (features !!! v) < length (features !!! v0) →
           (∀ j b, batches !! j = Some b →
              length (b !!! p) ≤ length (b !!! 0))
           ∧ ∃ b, last batches = Some b
                  ∧ length (b !!! p) < length (b !!! 0)).
Proof.
  intros Hall Hpos. rewrite batch_windows by done.
  set (N := length (features !!! v0)).
  set (s := Z.to_nat batch_size).
  set (n := Z.to_nat (ceil_div (Z.of_nat N) batch_size)).
  pose proof (window_count_bounds N batch_size Hpos) as Hlo.
  pose proof (window_count_covers N batch_size Hpos) as Hhi.
  fold s n in Hlo, Hhi. simpl in Hlo.
  assert (0 < s) as Hs by (subst s; lia).
  set (W := fun j => map (fun v => take s (drop (j * s) (features !!! v)))
                        (v0 :: vs)).
  assert (∀ j p v, (v0 :: vs) !! p = Some v →
            length (W j !!! p) = Nat.min s (length (features !!! v) - j * s))
    as Hrows.
  { intros j p v Hp. unfold W.
    rewrite map_is_fmap, (list_lookup_total_fmap _ _ p).
    - rewrite (list_lookup_total_correct _ _ _ Hp). apply length_window.
    - by eapply lookup_lt_Some. }
  exists (map W (seq 0 n)). split; [reflexivity|]. split.
  { rewrite length_map, length_seq. subst n.
    pose proof (ceil_div_bounds (Z.of_nat N) batch_size Hpos). lia. }
  intros p v Hp.
  assert (∀ j b, map W (seq 0 n) !! j = Some b → j < n ∧ b = W j) as Hnth.
  { intros j b Hb. rewrite map_is_fmap, list_lookup_fmap in Hb.
    destruct (seq 0 n !! j) as [j'|] eqn:Hj; [|done].
    apply lookup_seq in Hj as [-> Hj].
    change (Some (W j) = Some b) in Hb. by injection Hb as <-. }
  split.
  { intros j b Hb. destruct (Hnth j b Hb) as [_ ->]. by apply Hrows. }
  intros Hshort. split.
  - intros j b Hb. destruct (Hnth j b Hb) as [_ ->].
    rewrite (Hrows j p v Hp), (Hrows j 0 v0) by done. fold N. lia.
  - destruct n as [|n'] eqn:Hn; [lia|].
    exists (W n'). split.
    + rewrite seq_S, List.map_app. simpl. apply last_snoc.
    + rewrite (Hrows n' p v Hp), (Hrows n' 0 v0) by done. fold N. nia.
Qed.

End BatcherProperties.

(** *** The statements at the sample files *)

Lemma sample_features_present :
  Batcher.all_present sample_features ["pv"; "hrv"].
Proof.
  constructor; [by exists (seq 0 100)|].
  constructor; [by exists (seq 1000 100)|].
  constructor.
Defined.

Lemma ragged_features_present :
  Batcher.all_present ragged_features ["pv"; "hrv"].
Proof.
  constructor; [by exists (seq 0 100)|].
  constructor; [by exists (seq 1000 50)|].
  constructor.
Defined.

(** Scenario 1 of the specification: two series of 100 samples and a
    batch size of 32 give batches of 32, 32, 32 and 4 rows. *)
Example batch_scenario_1 :
  map batch_rows (yielded (fst (Batcher.batch ["pv"; "hrv"] 32 sample_features)))
  = [32; 32; 32; 4]
  ∧ outcome (fst (Batcher.batch ["pv"; "hrv"] 32 sample_features)) = Ok tt.
Proof. by vm_compute. Qed.

Lemma batch_count_and_sizes_witness :
  ∃ batches,
    fst (Batcher.batch ["pv"; "hrv"] 32 sample_features) = yield_all batches
    ∧ Z.of_nat (length batches) = ceil_div (Z.of_nat 100) 32
    ∧ (∀ j b, batches !! j = Some b →
         b = map (fun v =>
                    take (Z.to_nat 32)
                      (drop (j * Z.to_nat 32) (sample_features !!! v)))
               ["pv"; "hrv"]
         ∧ Forall (fun s => length s = batch_rows b) b
         ∧ batch_rows b
           = (if decide (S j < length batches)
              then Z.to_nat 32
              else 100 - j * Z.to_nat 32)
         ∧ 1 ≤ batch_rows b ≤ Z.to_nat 32)
    ∧ sum_list (map batch_rows batches) = 100.
Proof.
  apply (batch_count_and_sizes sample_features ["pv"; "hrv"] 32 100).
  - discriminate.
  - intros v Hv.
    apply elem_of_cons in Hv as [->|Hv]; [by exists (seq 0 100)|].
    apply elem_of_cons in Hv as [->|Hv]; [by exists (seq 1000 100)|].
    by apply elem_of_nil in Hv.
  - reflexivity.
Defined.

Lemma batch_alignment_witness :
  length [seq 32 32; seq 1032 32] = length ["pv"; "hrv"]
  ∧ ∀ p v, ["pv"; "hrv"] !! p = Some v →
      ∃ d s,
        sample_features !! v = Some d
        ∧ [seq 32 32; seq 1032 32] !! p = Some s
        ∧ s = py_slice d (Z.of_nat 1 * 32) (Z.of_nat 1 * 32 + 32)
        ∧ ∀ k, k < length s → s !! k = d !! (1 * Z.to_nat 32 + k).
Proof.
  apply (batch_alignment sample_features ["pv"; "hrv"] 32 1).
  vm_compute. reflexivity.
Defined.

Lemma batch_missing_variable_witness :
  fst (Batcher.batch ["pv"; "nwp"] 32 sample_features) = Throw AssertionError
  ∧ yielded (fst (Batcher.batch ["pv"; "nwp"] 32 sample_features)) = [].
Proof.
  apply (batch_missing_variable sample_features ["pv"; "nwp"] 32).
  exists "nwp". split.
  - apply elem_of_cons. right. apply elem_of_cons. by left.
  - reflexivity.
Defined.

Lemma batch_unequal_lengths_witness :
  ∃ batches,
    fst (Batcher.batch ["pv"; "hrv"] 32 ragged_features) = yield_all batches
    ∧ Z.of_nat (length batches)
      = ceil_div (Z.of_nat (length (ragged_features !!! "pv"))) 32
    ∧ ∀ p v, ["pv"; "hrv"] !! p = Some v →
        (∀ j b, batches !! j = Some b →
           length (b !!! p)
           = Nat.min (Z.to_nat 32)
               (length (ragged_features !!! v) - j * Z.to_nat 32))
        ∧ (length (ragged_features !!! v) < length (ragged_features !!! "pv") →
           (∀ j b, batches !! j = Some b →
              length (b !!! p) ≤ length (b !!! 0))
           ∧ ∃ b, last batches = Some b
                  ∧ length (b !!! p) < length (b !!! 0)).
Proof.
  apply (batch_unequal_lengths ragged_features "pv" ["hrv"] 32).
  - exact ragged_features_present.
  - reflexivity.
Defined.

(** The ragged file at work: four batches, the [hrv] slices run dry. *)
Example batch_ragged :
  map (map length) (yielded (fst (Batcher.batch ["pv"; "hrv"] 32 ragged_features)))
  = [[32; 32]; [32; 18]; [32; 0]; [4; 0]].
Proof. by vm_compute. Qed.

(** ** The live path *)

Section StreamProperties.

Context {Row F : Type} `{Numeric F}.
Implicit Types (w : Stream.world (Row := Row)) (g : gen (ndarray F))
  (predict : gmap string (list Row) → result (gen (ndarray F))).

Import Stream.

Lemma bind_ok {A B} (m : IO A) (k : A → IO B) tr a :
  m = (tr, Ok a) → bind m k = (tr ++ fst (k a), snd (k a)).
Proof. intros ->. unfold bind. by destruct (k a). Qed.

Lemma bind_raise {A B} (m : IO A) (k : A → IO B) tr e :
  m = (tr, Raise e) → bind m k = (tr, Raise e).
Proof. by intros ->. Qed.

Lemma write_sample_good (sample : list F) :
  length sample = 48 → write_sample sample = ([EWrite (line sample)], Ok tt).
Proof.
  intros Hlen. unfold write_sample. by rewrite Hlen.
Qed.

Lemma write_sample_bad (sample : list F) :
  length sample ≠ 48 → write_sample sample = ([], Raise AssertionError).
Proof.
  intros Hlen. unfold write_sample.
  by rewrite (proj2 (Nat.eqb_neq _ _) Hlen).
Qed.

(** The inner loop writes the samples up to the first one of a wrong
    length, and fails there. *)
Lemma for_each_write_sample (samples : list (list F)) :
  for_each samples write_sample
  = (map (fun sample => EWrite (line sample)) (shaped_prefix samples),
     if forallb (fun sample => length sample =? 48) samples
     then Ok tt else Raise AssertionError).
Proof.
  induction samples as [|sample samples IH]; [done|].
  simpl. destruct (Nat.eqb_spec (length sample) 48) as [Hlen|Hlen].
  - erewrite bind_ok by by apply write_sample_good.
    rewrite IH. done.
  - erewrite bind_raise by by apply write_sample_bad. done.
Qed.

Lemma shaped_prefix_all (samples : list (list F)) :
  forallb (fun sample => length sample =? 48) samples = true →
  shaped_prefix samples = samples.
Proof.
  induction samples as [|sample samples IH]; [done|]. simpl.
  destruct (length sample =? 48); [|done]. simpl. intros Hrest.
  by rewrite IH.
Qed.

Lemma shaped_prefix_stops (samples : list (list F)) :
  forallb (fun sample => length sample =? 48) samples = false →
  ∃ tail, samples = shaped_prefix samples ++ tail ∧ tail ≠ [].
Proof.
  induction samples as [|sample samples IH]; [done|]. simpl.
  destruct (length sample =? 48); simpl.
  - intros Hrest. destruct (IH Hrest) as (tail & Heq & Hne).
    exists tail. split; [by f_equal|done].
  - intros _. by exists (sample :: samples).
Qed.

Lemma shaped_prefix_app_all (xs ys : list (list F)) :
  forallb (fun sample => length sample =? 48) xs = true →
  shaped_prefix (xs ++ ys) = xs ++ shaped_prefix ys.
Proof.
  induction xs as [|x xs IH]; [done|]. simpl.
  destruct (length x =? 48); [|done]. simpl. intros Hrest. by rewrite IH.
Qed.

Lemma shaped_prefix_app_stop (xs ys : list (list F)) :
  forallb (fun sample => length sample =? 48) xs = false →
  shaped_prefix (xs ++ ys) = shaped_prefix xs.
Proof.
  induction xs as [|x xs IH]; [done|]. simpl.
  destruct (length x =? 48); [|done]. simpl. intros Hrest. by rewrite IH.
Qed.

(** A batch is written in full and flushed, or the loop stops at its
    first sample of a wrong length, before the flush. *)
Lemma write_batch_run (b : ndarray F) :
  write_batch b
  = if forallb (fun sample => length sample =? 48) (cells b)
    then (batch_events b, Ok tt)
    else (map (fun sample => EWrite (line sample)) (shaped_prefix (cells b)),
          Raise AssertionError).
Proof.
  unfold write_batch. rewrite for_each_write_sample.
  destruct (forallb _ (cells b)) eqn:Hall; [|done].
  unfold bind, flush, emit, batch_events. by rewrite shaped_prefix_all.
Qed.

Lemma for_gen_yield (b : ndarray F) g :
  for_gen (Yield b g) write_batch
  = if forallb (fun sample => length sample =? 48) (cells b)
    then (ENext :: batch_events b ++ fst (for_gen g write_batch),
          snd (for_gen g write_batch))
    else (ENext :: map (fun sample => EWrite (line sample))
                     (shaped_prefix (cells b)),
          Raise AssertionError).
Proof.
  simpl. rewrite write_batch_run.
  destruct (forallb _ (cells b)).
  - unfold bind. by destruct (for_gen g write_batch).
  - done.
Qed.

(** *** What [evaluate] does, case by case *)

Lemma evaluate_no_argument w predict :
  writable w (sink_path w) = true → argv w !! 1 = None →
  evaluate w predict
  = ([EOpenSink (sink_path w); EWrite ("OK" +:+ nl); EFlush; ECloseSink],
     Raise IndexError).
Proof.
  intros Hw Harg. unfold evaluate, with_open. rewrite Hw.
  unfold argv_get. rewrite Harg. done.
Qed.

Lemma evaluate_no_file w predict path :
  writable w (sink_path w) = true → argv w !! 1 = Some path →
  h5files w !! path = None →
  evaluate w predict
  = ([EOpenSink (sink_path w); EWrite ("OK" +:+ nl); EFlush;
      EOpenFeatures path; ECloseSink],
     Raise FileNotFoundError).
Proof.
  intros Hw Harg Hfile. unfold evaluate, with_open. rewrite Hw.
  unfold argv_get, h5py_File. rewrite Harg. simpl. rewrite Hfile. done.
Qed.

Lemma evaluate_no_generator w predict path features e :
  writable w (sink_path w) = true → argv w !! 1 = Some path →
  h5files w !! path = Some features → predict features = Raise e →
  evaluate w predict
  = ([EOpenSink (sink_path w); EWrite ("OK" +:+ nl); EFlush;
      EOpenFeatures path; ECloseSink],
     Raise e).
Proof.
  intros Hw Harg Hfile Hcall. unfold evaluate, with_open. rewrite Hw.
  unfold argv_get, h5py_File. rewrite Harg. simpl. rewrite Hfile. simpl.
  rewrite Hcall. done.
Qed.

Lemma evaluate_run w predict path features g :
  writable w (sink_path w) = true → argv w !! 1 = Some path →
  h5files w !! path = Some features → predict features = Ok g →
  evaluate w predict
  = ([EOpenSink (sink_path w); EWrite ("OK" +:+ nl); EFlush; EOpenFeatures path]
       ++ fst (for_gen g write_batch) ++ [ECloseSink],
     snd (for_gen g write_batch)).
Proof.
  intros Hw Harg Hfile Hcall. unfold evaluate, with_open. rewrite Hw.
  unfold argv_get, h5py_File. rewrite Harg. simpl. rewrite Hfile. simpl.
  rewrite Hcall. simpl. by destruct (for_gen g write_batch).
Qed.

(** *** Reading a trace *)

Lemma written_app (tr tr' : list event) :
  written (tr ++ tr') = written tr ++ written tr'.
Proof.
  induction tr as [|ev tr IH]; [done|].
  destruct ev; simpl; by rewrite IH.
Qed.

Lemma written_writes (samples : list (list F)) :
  written (map (fun sample => EWrite (line sample)) samples) = map line samples.
Proof. induction samples; simpl; congruence. Qed.

Lemma written_batch_events (b : ndarray F) :
  written (batch_events b) = map line (cells b).
Proof.
  unfold batch_events. rewrite written_app, written_writes. simpl.
  apply app_nil_r.
Qed.

Lemma filter_writes (samples : list (list F)) :
  List.filter on_sink (map (fun sample => EWrite (line sample)) samples)
  = map (fun sample => EWrite (line sample)) samples.
Proof. induction samples; simpl; congruence. Qed.

Lemma filter_batch_events (b : ndarray F) :
  List.filter on_sink (batch_events b) = batch_events b.
Proof.
  unfold batch_events. rewrite List.filter_app, filter_writes. done.
Qed.

(** *** The outer loop *)

(** On the sink, the loop over the generator leaves the batches it wrote
    in full, each followed by its flush, and then the lines of the batch
    at which it failed, if any. *)
Lemma for_gen_sink g :
  ∃ done partial,
    List.filter on_sink (fst (for_gen g write_batch))
    = flat_map batch_events done
      ++ map (fun sample => EWrite (line sample)) partial
    ∧ done `prefix_of` yielded g
    ∧ (partial ≠ [] →
       ∃ b tail, (done ++ [b]) `prefix_of` yielded g
                 ∧ cells b = partial ++ tail ∧ tail ≠ [])
    ∧ (snd (for_gen g write_batch) = Ok tt →
       done = yielded g ∧ partial = []).
Proof.
  induction g as [|e|b g IH].
  - exists [], []. split; [done|]. split; [apply prefix_nil|]. by split.
  - exists [], []. split; [done|]. split; [apply prefix_nil|]. by split.
  - rewrite for_gen_yield.
    destruct (forallb _ (cells b)) eqn:Hall.
    + destruct IH as (done & partial & Htr & Hpre & Hpart & Hok).
      exists (b :: done), partial. simpl. split; [|split; [|split]].
      * rewrite List.filter_app, filter_batch_events, Htr.
        by rewrite <- app_assoc.
      * by apply prefix_cons.
      * intros Hne. destruct (Hpart Hne) as (b' & tail & Hpre' & Hcells & Htail).
        exists b', tail. split; [by apply prefix_cons|done].
      * intros Hres. destruct (Hok Hres) as [-> ->]. done.
    + exists [], (shaped_prefix (cells b)). simpl. split; [|split; [|split]].
      * by rewrite filter_writes.
      * apply prefix_nil.
      * intros _. destruct (shaped_prefix_stops _ Hall) as (tail & Hcells & Htail).
        exists b, tail. split; [|done].
        apply prefix_cons, prefix_nil.
      * done.
Qed.

(** The lines the loop writes are those of the samples that come before
    the first sample of a wrong length, over all batches; the loop ends
    as the generator does unless such a sample stops it. *)
Lemma for_gen_written g :
  written (fst (for_gen g write_batch))
  = map line (shaped_prefix (concat (map cells (yielded g))))
  ∧ snd (for_gen g write_batch)
    = if forallb (fun sample => length sample =? 48)
           (concat (map cells (yielded g)))
      then outcome g else Raise AssertionError.
Proof.
  induction g as [|e|b g [IHw IHr]]; [done..|].
  rewrite for_gen_yield. simpl yielded. simpl map. simpl concat.
  rewrite forallb_app. simpl outcome.
  destruct (forallb _ (cells b)) eqn:Hall; simpl.
  - rewrite written_app, written_batch_events, IHw, IHr.
    by rewrite shaped_prefix_app_all, List.map_app.
  - by rewrite written_writes, shaped_prefix_app_stop.
Qed.

Lemma count_char_append c (s1 s2 : string) :
  count_char c (s1 +:+ s2) = count_char c s1 + count_char c s2.
Proof.
  induction s1 as [|c' s1 IH]; [done|]. simpl. rewrite IH. lia.
Qed.

Lemma count_char_concat c sep (parts : list string) :
  count_char c sep = 0 → Forall (fun part => count_char c part = 0) parts →
  count_char c (String.concat sep parts) = 0.
Proof.
  intros Hsep. induction 1 as [|part parts Hpart Hparts IH]; [done|].
  simpl. destruct parts as [|part' parts]; [done|].
  rewrite !count_char_append, Hpart, Hsep. exact IH.
Qed.

(** C4: a sample whose length is not 48 makes the write fail on the
    assertion (the specification's [ShapeError]) with nothing written
    for it; a sample of length 48 is written by one write, as one line
    when the numbers print without a line feed.  Over a run that opened
    its sink and its input, the sink receives the readiness line and the
    lines of the samples that come before the first sample of a wrong
    length, and nothing else; the run ends with the assertion error when
    there is such a sample, and as the generator of [predict] ends
    otherwise. *)
Theorem evaluate_shape_check w predict path features g :
  writable w (sink_path w) = true →
  argv w !! 1 = Some path →
  h5files w !! path = Some features →
  predict features = Ok g →
  (∀ sample : list F, length sample ≠ 48 →
     write_sample sample = ([], Raise AssertionError))
  ∧ (∀ sample : list F, length sample = 48 →
       write_sample sample = ([EWrite (line sample)], Ok tt)
       ∧ (Forall (fun x => count_char (ascii_of_nat 10) (str_float x) = 0) sample →
          count_char (ascii_of_nat 10) (line sample) = 1
          ∧ ∃ body, line sample = body +:+ nl))
  ∧ written (fst (evaluate w predict))
    = ("OK" +:+ nl)
      :: map line (shaped_prefix (concat (map cells (yielded g))))
  ∧ (Forall (fun sample => length sample = 48)
       (concat (map cells (yielded g))) →
     snd (evaluate w predict) = outcome g)
  ∧ (¬ Forall (fun sample => length sample = 48)
         (concat (map cells (yielded g))) →
     snd (evaluate w predict) = Raise AssertionError).
Proof.
  intros Hw Harg Hfile Hcall.
  split; [apply write_sample_bad|]. split.
  { intros sample Hlen. split; [by apply write_sample_good|].
    intros Hclean. split; [|by eexists].
    unfold line. rewrite count_char_append, count_char_concat; [done..|].
    rewrite map_is_fmap. apply Forall_fmap. exact Hclean. }
  rewrite (evaluate_run w predict path features g) by done.
  destruct (for_gen_written g) as [Hwr Hres].
  simpl fst. simpl snd. split; [|split].
  - simpl. rewrite written_app, Hwr. simpl. by rewrite app_nil_r.
  - intros Hall. rewrite Hres.
    rewrite (proj2 (forallb_forall _ _)); [done|].
    intros sample Hin. apply Nat.eqb_eq.
    rewrite Forall_forall in Hall. apply Hall. by apply list_elem_of_In.
  - intros Hbad. rewrite Hres.
    destruct (forallb _ _) eqn:Hall; [|done].
    exfalso. apply Hbad. apply Forall_forall. intros sample Hin.
    apply Nat.eqb_eq. rewrite forallb_forall in Hall. apply Hall.
    by apply list_elem_of_In.
Qed.

(** Every round of the loop begins by resuming the generator. *)
Lemma for_gen_starts g :
  ∃ rest, fst (for_gen g write_batch) = ENext :: rest.
Proof.
  destruct g as [|e|b g]; [by eexists..|].
  rewrite for_gen_yield. destruct (forallb _ (cells b)); by eexists.
Qed.

(** C5: in a run that opened its sink, what the sink sees is: the file
    opened, the line "OK" written and flushed, then for each batch
    written in full its lines followed by one flush, then, when the run
    fails inside a batch, the lines of that batch written so far with no
    flush, then the file closed.  The batches written in full are the
    first batches the predictor yields, in order, and all of them when
    the run ends normally. *)
Theorem evaluate_flush_discipline w predict :
  writable w (sink_path w) = true →
  ∃ done partial,
    List.filter on_sink (fst (evaluate w predict))
    = [EOpenSink (sink_path w); EWrite ("OK" +:+ nl); EFlush]
      ++ flat_map batch_events done
      ++ map (fun sample => EWrite (line sample)) partial
      ++ [ECloseSink]
    ∧ done `prefix_of` input_batches w predict
    ∧ (partial ≠ [] →
       ∃ b tail, (done ++ [b]) `prefix_of` input_batches w predict
                 ∧ cells b = partial ++ tail ∧ tail ≠ [])
    ∧ (snd (evaluate w predict) = Ok tt →
       done = input_batches w predict ∧ partial = []).
Proof.
  intros Hw. unfold input_batches.
  destruct (argv w !! 1) as [path|] eqn:Harg.
  2:{ rewrite evaluate_no_argument by done.
      exists [], []. split; [done|]. split; [apply prefix_nil|]. by split. }
  destruct (h5files w !! path) as [features|] eqn:Hfile.
  2:{ rewrite (evaluate_no_file w predict path) by done.
      exists [], []. split; [done|]. split; [apply prefix_nil|]. by split. }
  destruct (predict features) as [g|e] eqn:Hcall.
  2:{ rewrite (evaluate_no_generator w predict path features e) by done.
      exists [], []. split; [done|]. split; [apply prefix_nil|]. by split. }
  rewrite (evaluate_run w predict path features g) by done.
  destruct (for_gen_sink g)
    as (done & partial & Htr & Hpre & Hpart & Hok).
  exists done, partial. split; [|done].
  simpl. rewrite List.filter_app, Htr. simpl. by rewrite <- app_assoc.
Qed.

(** C10: in a run that opened its sink, the first things that happen are
    the write of "OK" and its flush; the input file is opened, and then
    [predict] called and asked for its first batch, only after them.
    When the command line names no file, when the file cannot be opened,
    when the call of [predict] raises, or when its generator raises
    before the first batch, the run ends with that error and the sink has
    received the flushed line "OK" and nothing else. *)
Theorem evaluate_ready_first w predict :
  writable w (sink_path w) = true →
  (∃ rest,
     fst (evaluate w predict)
     = [EOpenSink (sink_path w); EWrite ("OK" +:+ nl); EFlush] ++ rest)
  ∧ (∀ path features g,
       argv w !! 1 = Some path → h5files w !! path = Some features →
       predict features = Ok g →
       ∃ rest,
         fst (evaluate w predict)
         = [EOpenSink (sink_path w); EWrite ("OK" +:+ nl); EFlush;
            EOpenFeatures path; ENext] ++ rest)
  ∧ (argv w !! 1 = None →
     evaluate w predict
     = ([EOpenSink (sink_path w); EWrite ("OK" +:+ nl); EFlush; ECloseSink],
        Raise IndexError))
  ∧ (∀ path, argv w !! 1 = Some path → h5files w !! path = None →
     evaluate w predict
     = ([EOpenSink (sink_path w); EWrite ("OK" +:+ nl); EFlush;
         EOpenFeatures path; ECloseSink],
        Raise FileNotFoundError))
  ∧ (∀ path features e,
       argv w !! 1 = Some path → h5files w !! path = Some features →
       predict features = Raise e →
       evaluate w predict
       = ([EOpenSink (sink_path w); EWrite ("OK" +:+ nl); EFlush;
           EOpenFeatures path; ECloseSink],
          Raise e))
  ∧ (∀ path features e,
       argv w !! 1 = Some path → h5files w !! path = Some features →
       predict features = Ok (Throw e) →
       evaluate w predict
       = ([EOpenSink (sink_path w); EWrite ("OK" +:+ nl); EFlush;
           EOpenFeatures path; ENext; ECloseSink],
          Raise e))
  ∧ (argv w !! 1 = None
     ∨ (∃ path, argv w !! 1 = Some path
                ∧ (h5files w !! path = None
                   ∨ ∃ features e,
                       h5files w !! path = Some features
                       ∧ (predict features = Raise e
                          ∨ predict features = Ok (Throw e)))) →
     written (fst (evaluate w predict)) = ["OK" +:+ nl]
     ∧ ∃ e, snd (evaluate w predict) = Raise e).
Proof.
  intros Hw.
  assert (∀ path features e,
            argv w !! 1 = Some path → h5files w !! path = Some features →
            predict features = Ok (Throw e) →
            evaluate w predict
            = ([EOpenSink (sink_path w); EWrite ("OK" +:+ nl); EFlush;
                EOpenFeatures path; ENext; ECloseSink],
               Raise e)) as Hthrow.
  { intros path features e Harg Hfile Hcall.
    by rewrite (evaluate_run w predict path features (Throw e)). }
  split; [|split; [|split; [|split; [|split; [|split]]]]].
  - destruct (argv w !! 1) as [path|] eqn:Harg.
    2:{ rewrite evaluate_no_argument by done. by eexists. }
    destruct (h5files w !! path) as [features|] eqn:Hfile.
    2:{ rewrite (evaluate_no_file w predict path) by done. by eexists. }
    destruct (predict features) as [g|e] eqn:Hcall.
    + rewrite (evaluate_run w predict path features g) by done. by eexists.
    + rewrite (evaluate_no_generator w predict path features e) by done.
      by eexists.
  - intros path features g Harg Hfile Hcall.
    rewrite (evaluate_run w predict path features g) by done.
    destruct (for_gen_starts g) as [rest ->].
    by eexists.
  - intros Harg. by apply evaluate_no_argument.
  - intros path Harg Hfile. by apply evaluate_no_file.
  - intros path features e Harg Hfile Hcall.
    by apply (evaluate_no_generator w predict path features).
  - exact Hthrow.
  - intros [Harg|(path & Harg & [Hfile|(features & e & Hfile & [Hcall|Hcall])])].
    + rewrite evaluate_no_argument by done. split; [done|by eexists].
    + rewrite (evaluate_no_file w predict path) by done.
      split; [done|by eexists].
    + rewrite (evaluate_no_generator w predict path features e) by done.
      split; [done|by eexists].
    + rewrite (Hthrow path features e) by done. split; [done|by eexists].
Qed.

End StreamProperties.

(** ** Arrays *)

Section NumpyProperties.

Context {F : Type} `{Numeric F}.
Implicit Types (a b : ndarray F).

Import Numpy.

Lemma stretch_same {A} (n : nat) (l : list A) : length l = n → stretch n l = l.
Proof.
  intros <-. destruct l as [|x [|y l]]; reflexivity.
Qed.

Lemma broadcast_to_same (r c : nat) a :
  nrows a = r → ncols a = c → well_shaped a → broadcast_to r c a = cells a.
Proof.
  intros Hr Hc Hwf. unfold broadcast_to.
  rewrite stretch_same by done.
  unfold well_shaped in Hwf. rewrite Hc in Hwf.
  induction Hwf as [|row rows Hrow _ IH]; [done|].
  simpl. by rewrite stretch_same, IH.
Qed.

Lemma broadcast_dim_same (n : nat) : broadcast_dim n n = Some n.
Proof. unfold broadcast_dim. by rewrite Nat.eqb_refl. Qed.

Lemma broadcast_dim_mismatch (n m : nat) :
  n ≠ m → n ≠ 1 → m ≠ 1 → broadcast_dim n m = None.
Proof.
  intros Hnm Hn Hm. unfold broadcast_dim.
  by rewrite !(proj2 (Nat.eqb_neq _ _)).
Qed.

(** Arrays of one shape are subtracted cell by cell. *)
Lemma subtract_same_shape a b :
  nrows a = nrows b → ncols a = ncols b → well_shaped a → well_shaped b →
  subtract a b
  = Ok (mk_ndarray (ncols a) (zip_with (zip_with sub) (cells a) (cells b))).
Proof.
  intros Hr Hc Ha Hb. unfold subtract.
  rewrite <- Hr, <- Hc, !broadcast_dim_same.
  rewrite broadcast_to_same by done.
  by rewrite broadcast_to_same.
Qed.

(** Row counts that differ, neither of them 1, cannot be broadcast. *)
Lemma subtract_mismatch a b :
  nrows a ≠ nrows b → nrows a ≠ 1 → nrows b ≠ 1 →
  subtract a b = Raise (ValueError "operands could not be broadcast together").
Proof.
  intros Hne Ha Hb. unfold subtract.
  by rewrite broadcast_dim_mismatch.
Qed.

Lemma length_concat_cells (arrays : list (ndarray F)) :
  length (concat (map cells arrays)) = sum_list (map nrows arrays).
Proof.
  induction arrays as [|x l IH]; [done|].
  simpl. rewrite length_app, IH. done.
Qed.

Lemma concatenate_rows (arrays : list (ndarray F)) a :
  concatenate arrays = Ok a →
  cells a = concat (map cells arrays)
  ∧ nrows a = sum_list (map nrows arrays).
Proof.
  unfold concatenate. destruct arrays as [|a0 arrays]; [done|].
  destruct (forallb _ _); [|done]. intros [= <-]. split; [done|].
  exact (length_concat_cells (a0 :: arrays)).
Qed.

Lemma concatenate_48 (arrays : list (ndarray F)) :
  arrays ≠ [] → Forall (fun b => ncols b = 48) arrays →
  concatenate arrays = Ok (mk_ndarray 48 (concat (map cells arrays))).
Proof.
  intros Hne Hall. unfold concatenate.
  destruct arrays as [|a0 arrays]; [done|].
  assert (ncols a0 = 48) as Ha0 by by inversion Hall.
  rewrite (proj2 (forallb_forall _ _)); [by rewrite Ha0|].
  intros b Hb. apply Nat.eqb_eq. rewrite Ha0.
  rewrite Forall_forall in Hall. apply Hall. by apply list_elem_of_In.
Qed.

Lemma map_zip_with2 {A B C D} (g : C → D) (f : A → B → C) (l : list A) (k : list B) :
  map g (zip_with f l k) = zip_with (fun x y => g (f x y)) l k.
Proof.
  revert k. induction l as [|x l IH]; intros [|y k]; simpl; [done..|].
  by rewrite IH.
Qed.

Lemma zip_with_ext2 {A B C} (f g : A → B → C) (l : list A) (k : list B) :
  (∀ x y, f x y = g x y) → zip_with f l k = zip_with g l k.
Proof.
  intros Hfg. revert k. induction l as [|x l IH]; intros [|y k]; simpl; [done..|].
  by rewrite Hfg, IH.
Qed.

Lemma length_concat_uniform {A} (c : nat) (rows : list (list A)) :
  Forall (fun row => length row = c) rows →
  length (concat rows) = length rows * c.
Proof.
  induction 1 as [|row rows Hrow _ IH]; [done|].
  simpl. rewrite length_app, IH, Hrow. done.
Qed.

Lemma zip_rows_uniform {A B C} (f : A → B → C) (c : nat)
    (l : list (list A)) (k : list (list B)) :
  Forall (fun row => length row = c) l →
  Forall (fun row => length row = c) k →
  Forall (fun row => length row = c) (zip_with (zip_with f) l k).
Proof.
  intros Hl. revert k. induction Hl as [|x l Hx _ IH]; intros k Hk; [constructor|].
  destruct Hk as [|y k Hy Hk]; simpl; constructor.
  - rewrite length_zip_with. lia.
  - by apply IH.
Qed.

(** The mean of the absolute values of a difference of same-shaped
    arrays is the mean absolute error of the specification. *)
Lemma mean_absolute_difference (c : nat) (l k : list (list F)) :
  length l = length k →
  Forall (fun row => length row = c) l →
  Forall (fun row => length row = c) k →
  mean (np_absolute (mk_ndarray c (zip_with (zip_with sub) l k)))
  = Validate.mean_abs_error l k.
Proof.
  intros Hlen Hl Hk. unfold mean, np_absolute, Validate.mean_abs_error, nrows.
  simpl.
  rewrite map_zip_with2.
  rewrite (zip_with_ext2 _ (zip_with (fun t p => absolute (sub t p))))
    by (intros; apply map_zip_with2).
  f_equal. f_equal.
  rewrite (length_concat_uniform c) by by apply zip_rows_uniform.
  done.
Qed.

Lemma all_zero_replicate (xs : list F) :
  Forall (eq zero) xs → xs = replicate (length xs) zero.
Proof.
  induction 1 as [|x xs <- _ IH]; [done|]. simpl. by rewrite <- IH.
Qed.

(** With nothing but zeros on both sides the mean absolute error is the
    quotient of NumPy's sum of as many zeros as there are components by
    their number. *)
Lemma mean_abs_error_zeros (l k : list (list F)) :
  sub zero zero = zero → absolute zero = zero →
  Forall (Forall (eq zero)) l → Forall (Forall (eq zero)) k →
  ∃ n, n = length (concat (zip_with (zip_with (fun t p => absolute (sub t p))) l k))
       ∧ Validate.mean_abs_error l k
         = divide (add_reduce (replicate n zero)) (of_count n).
Proof.
  intros Hsub Habs Hl Hk. eexists. split; [reflexivity|].
  unfold Validate.mean_abs_error. f_equal.
  rewrite <- all_zero_replicate; [done|].
  revert k Hk. induction Hl as [|row l Hrow _ IH]; intros k Hk; [constructor|].
  destruct Hk as [|row' k Hrow' Hk]; simpl; [constructor|].
  apply Forall_app. split; [|by apply IH].
  clear -Hsub Habs Hrow Hrow'.
  revert row' Hrow'. induction Hrow as [|x row <- _ IH]; intros row' Hrow';
    [constructor|].
  destruct Hrow' as [|y row' <- Hrow']; simpl; constructor.
  - by rewrite Hsub, Habs.
  - by apply IH.
Qed.

End NumpyProperties.

(** ** The validation script *)

Section ValidateProperties.

Context {Row F : Type} `{Numeric F}.
Context (asarray : list Row → ndarray F).
Implicit Types (data : gmap string (list Row)) (g : gen (ndarray F))
  (predict : gmap string (list Row) → result (gen (ndarray F))).

Import Validate.

Lemma collect_yield_all (batches acc : list (ndarray F)) :
  Forall (fun b => ncols b = 48) batches →
  collect (yield_all batches) acc = Ok (acc ++ batches).
Proof.
  intros Hall. revert acc.
  induction Hall as [|b batches Hb _ IH]; intros acc; simpl.
  - by rewrite app_nil_r.
  - rewrite Hb. simpl. rewrite IH. by rewrite <- app_assoc.
Qed.

(** What the loop has gathered when it ends normally is what the
    generator yielded. *)
Lemma collect_yielded g (acc predictions : list (ndarray F)) :
  collect g acc = Ok predictions → predictions = acc ++ yielded g.
Proof.
  revert acc. induction g as [|e|b g IH]; intros acc; simpl.
  - intros [= <-]. by rewrite app_nil_r.
  - done.
  - destruct (ncols b =? 48); [|done].
    intros Hrun. rewrite (IH _ Hrun). by rewrite <- app_assoc.
Qed.

(** C6: when the targets of the file form a well-shaped array of 48
    columns, [predict] yields well-shaped batches of 48 columns and
    returns, and the batches together have as many rows as the targets,
    the script prints "MAE: " followed by the mean, over all samples and
    components, of the absolute difference between target and prediction,
    the predictions being taken in the order the batches were yielded.
    The mean is NumPy's: its own sum of the differences, divided by
    their number.  When moreover every target and every prediction is
    zero (and zero minus zero, the absolute value of zero, NumPy's sum
    of that many zeros, and zero divided by the number of components are
    zero), it prints the number zero. *)
Theorem main_mean_abs_error data targets predict batches :
  data !! "targets" = Some targets →
  predict data = Ok (yield_all batches) →
  batches ≠ [] →
  Forall (fun b => well_shaped b ∧ ncols b = 48) batches →
  well_shaped (asarray targets) →
  ncols (asarray targets) = 48 →
  nrows (asarray targets) = sum_list (map nrows batches) →
  main asarray (Some data) (Ok predict)
  = (["MAE: " +:+
      str_float (mean_abs_error (cells (asarray targets))
                   (concat (map cells batches)))],
     Ok tt)
  ∧ (sub zero zero = zero → absolute zero = zero →
     add_reduce (replicate (nrows (asarray targets) * 48) zero) = zero →
     divide zero (of_count (nrows (asarray targets) * 48)) = zero →
     Forall (Forall (eq zero)) (cells (asarray targets)) →
     Forall (fun b => Forall (Forall (eq zero)) (cells b)) batches →
     main asarray (Some data) (Ok predict)
     = (["MAE: " +:+ str_float zero], Ok tt)).
Proof.
  intros Htargets Hpredict Hne Hbatches Hwf Hcols Hrows.
  assert (Forall (fun b => ncols b = 48) batches) as Hcols48.
  { eapply Forall_impl; [exact Hbatches|]. by intros b [_ ?]. }
  assert (Forall (fun row => length row = 48) (concat (map cells batches)))
    as Hwide.
  { clear -Hbatches. induction Hbatches as [|b batches [Hb Hc] _ IH];
      [constructor|].
    simpl. apply Forall_app. split; [|done].
    unfold well_shaped in Hb. by rewrite Hc in Hb. }
  assert (main asarray (Some data) (Ok predict)
          = (["MAE: " +:+
              str_float (mean_abs_error (cells (asarray targets))
                           (concat (map cells batches)))], Ok tt)) as Hmain.
  { unfold main. rewrite Hpredict, collect_yield_all by done. simpl app.
    rewrite Htargets, (concatenate_48 batches) by done.
    rewrite subtract_same_shape; cycle 1.
    - unfold nrows at 2. simpl cells. by rewrite length_concat_cells.
    - done.
    - done.
    - exact Hwide.
    - rewrite Hcols. simpl cells.
      rewrite (mean_absolute_difference 48); [done| |by rewrite <- Hcols|done].
      rewrite length_concat_cells. exact Hrows. }
  split; [exact Hmain|].
  intros Hsub Habs Hsum Hdiv Hzt Hzp. rewrite Hmain.
  destruct (mean_abs_error_zeros (cells (asarray targets))
              (concat (map cells batches)) Hsub Habs Hzt) as (n & Hn & ->).
  { clear -Hzp. induction Hzp as [|b batches Hb _ IH]; [constructor|].
    simpl. apply Forall_app. by split. }
  rewrite Hn, (length_concat_uniform 48).
  - rewrite length_zip_with, length_concat_cells, <- Hrows.
    unfold nrows in *. rewrite Nat.min_id, Hsum, Hdiv. done.
  - apply zip_rows_uniform; [|done]. unfold well_shaped in Hwf.
    by rewrite Hcols in Hwf.
Qed.

(** C7 (amended): when the targets are in the file and their number of
    rows differs from the number of rows [predict] yields, neither
    number being 1, the script prints nothing and ends with an
    exception; when the batches were gathered and concatenated, that
    exception is NumPy's failure to broadcast the two shapes. *)
Theorem main_shape_mismatch data targets predict g :
  data !! "targets" = Some targets →
  predict data = Ok g →
  nrows (asarray targets) ≠ sum_list (map nrows (yielded g)) →
  nrows (asarray targets) ≠ 1 →
  sum_list (map nrows (yielded g)) ≠ 1 →
  fst (main asarray (Some data) (Ok predict)) = []
  ∧ (∃ e, snd (main asarray (Some data) (Ok predict)) = Raise e)
  ∧ (∀ predictions predicted,
       collect g [] = Ok predictions →
       Numpy.concatenate predictions = Ok predicted →
       snd (main asarray (Some data) (Ok predict))
       = Raise (ValueError "operands could not be broadcast together")).
Proof.
  intros Htargets Hcall Hne Hn Hm. unfold main. rewrite Hcall, Htargets.
  destruct (collect g []) as [predictions|e] eqn:Hcollect.
  2:{ split; [done|]. split; [by eexists|]. by intros ? ? [=]. }
  apply collect_yielded in Hcollect. simpl in Hcollect. subst predictions.
  destruct (Numpy.concatenate (yielded g)) as [predicted|e] eqn:Hcat.
  2:{ split; [done|]. split; [by eexists|].
      intros ? ? [= <-] Hcat'. congruence. }
  apply concatenate_rows in Hcat as [_ Hrows].
  rewrite subtract_mismatch by by rewrite ?Hrows.
  split; [done|]. split; [by eexists|done].
Qed.

End ValidateProperties.

(** ** The statements at the sample worlds *)

(** Scenario 2 of the specification: the network returns rows of 47
    numbers; the run stops on the assertion and the sink holds the
    readiness line only. *)
Lemma evaluate_shape_check_witness :
  Stream.written (fst (Stream.evaluate live_world (Run.predict short_model)))
  = ["OK" +:+ nl]
  ∧ snd (Stream.evaluate live_world (Run.predict short_model))
    = Raise AssertionError.
Proof.
  destruct (evaluate_shape_check live_world (Run.predict short_model)
              "features.hdf5" (validation_file 3 0)
              (Run.predict_loop short_model
                 (fst (Batcher.batch ["pv"; "hrv"] 32 (validation_file 3 0)))))
    as (_ & _ & Hwritten & _ & Hbad); [reflexivity..|].
  split.
  - rewrite Hwritten. reflexivity.
  - apply Hbad. intros Hall. vm_compute in Hall.
    apply Forall_inv in Hall. discriminate Hall.
Defined.

(** A run of three samples: one batch of three lines and its flush. *)
Example evaluate_three_samples :
  List.filter Stream.on_sink (fst (Stream.evaluate live_world (Run.predict zero_model)))
  = [EOpenSink "./out"; EWrite ("OK" +:+ nl); EFlush;
     EWrite (Stream.line (replicate 48 0%float));
     EWrite (Stream.line (replicate 48 0%float));
     EWrite (Stream.line (replicate 48 0%float));
     EFlush; ECloseSink]
  ∧ snd (Stream.evaluate live_world (Run.predict zero_model)) = Ok tt.
Proof. by vm_compute. Qed.

Lemma evaluate_flush_discipline_witness :
  ∃ done partial,
    List.filter Stream.on_sink (fst (Stream.evaluate live_world (Run.predict zero_model)))
    = [EOpenSink (Stream.sink_path live_world); EWrite ("OK" +:+ nl); EFlush]
      ++ flat_map Stream.batch_events done
      ++ map (fun sample => EWrite (Stream.line sample)) partial
      ++ [ECloseSink]
    ∧ done `prefix_of` Stream.input_batches live_world (Run.predict zero_model)
    ∧ (partial ≠ [] →
       ∃ b tail,
         (done ++ [b]) `prefix_of`
           Stream.input_batches live_world (Run.predict zero_model)
         ∧ cells b = partial ++ tail ∧ tail ≠ [])
    ∧ (snd (Stream.evaluate live_world (Run.predict zero_model)) = Ok tt →
       done = Stream.input_batches live_world (Run.predict zero_model)
       ∧ partial = []).
Proof.
  apply (evaluate_flush_discipline live_world (Run.predict zero_model)).
  reflexivity.
Defined.

Lemma evaluate_ready_first_witness :
  Stream.written (fst (Stream.evaluate lost_world (Run.predict zero_model)))
  = ["OK" +:+ nl]
  ∧ ∃ e, snd (Stream.evaluate lost_world (Run.predict zero_model)) = Raise e.
Proof.
  destruct (evaluate_ready_first lost_world (Run.predict zero_model))
    as (_ & _ & _ & _ & _ & _ & Hfail); [reflexivity|].
  apply Hfail. right. exists "features.hdf5".
  split; [reflexivity|]. left. reflexivity.
Defined.

(** Scenario 3 of the specification: ten samples, predictions and
    targets all zero. *)
Lemma main_mean_abs_error_witness :
  Validate.main targets_asarray (Some (validation_file 10 10))
    (Run.Evaluator (Some zero_model))
  = (["MAE: 0.0"], Ok tt).
Proof.
  destruct (main_mean_abs_error targets_asarray (validation_file 10 10)
              (replicate 10 (replicate 48 0%float)) (Run.predict zero_model)
              [mk_ndarray 48 (replicate 10 (replicate 48 0%float))])
    as [_ Hzero].
  - reflexivity.
  - reflexivity.
  - discriminate.
  - constructor; [|constructor]. split; [|reflexivity].
    unfold well_shaped. simpl. repeat constructor.
  - unfold well_shaped. simpl. repeat constructor.
  - reflexivity.
  - reflexivity.
  - apply Hzero; try reflexivity.
    + simpl. repeat constructor.
    + constructor; [|constructor]. simpl. repeat constructor.
Defined.

(** C7, refuted as stated: one row of targets against one batch of ten
    rows of predictions is a different sample count, yet the subtraction
    broadcasts the single row, no error is raised and an MAE is printed. *)
Lemma main_broadcast_counterexample :
  validation_file 10 1 !! "targets" = Some (replicate 1 (replicate 48 0%float))
  ∧ nrows (targets_asarray (replicate 1 (replicate 48 0%float))) = 1
  ∧ Run.predict zero_model (validation_file 10 1)
    = Ok (yield_all [mk_ndarray 48 (replicate 10 (replicate 48 0%float))])
  ∧ Validate.main targets_asarray (Some (validation_file 10 1))
      (Run.Evaluator (Some zero_model))
    = (["MAE: 0.0"], Ok tt).
Proof. by vm_compute. Qed.

(** Scenario 4 of the specification: nine rows of targets against ten
    rows of predictions. *)
Lemma main_shape_mismatch_witness :
  fst (Validate.main targets_asarray (Some (validation_file 10 9))
         (Ok (Run.predict zero_model))) = []
  ∧ (∃ e, snd (Validate.main targets_asarray (Some (validation_file 10 9))
                 (Ok (Run.predict zero_model))) = Raise e)
  ∧ (∀ predictions predicted,
       Validate.collect
         (yield_all [mk_ndarray 48 (replicate 10 (replicate 48 0%float))]) []
       = Ok predictions →
       Numpy.concatenate predictions = Ok predicted →
       snd (Validate.main targets_asarray (Some (validation_file 10 9))
              (Ok (Run.predict zero_model)))
       = Raise (ValueError "operands could not be broadcast together")).
Proof.
  apply (main_shape_mismatch targets_asarray (validation_file 10 9)
           (replicate 9 (replicate 48 0%float)) (Run.predict zero_model)
           (yield_all [mk_ndarray 48 (replicate 10 (replicate 48 0%float))])).
  - reflexivity.
  - reflexivity.
  - vm_compute. discriminate.
  - vm_compute. discriminate.
  - vm_compute. discriminate.
Defined.

(** ** Further runs of the model *)

(** An empty variable list is refused before anything else. *)
Example batch_no_variables :
  fst (Batcher.batch [] 32 sample_features)
  = Throw (ValueError "At least one data variable must be specified.").
Proof. reflexivity. Qed.

(** A batch size of zero is refused by [range], after the variables were
    checked. *)
Example batch_size_zero :
  fst (Batcher.batch ["pv"; "hrv"] 0 sample_features)
  = Throw (ValueError "range() arg 3 must not be zero")
  ∧ fst (Batcher.batch ["pv"; "nwp"] 0 sample_features) = Throw AssertionError.
Proof. by vm_compute. Qed.

(** The evaluator of the base class: [predict] raises when it is called,
    after the readiness line was flushed and the input opened. *)
Example evaluate_base_predict :
  Stream.evaluate live_world Run.base_predict
  = ([EOpenSink "./out"; EWrite ("OK" +:+ nl); EFlush;
      EOpenFeatures "features.hdf5"; ECloseSink],
     Raise NotImplementedError).
Proof. by vm_compute. Qed.

(** A row of 48 zeros is written as one line of 48 fields. *)
Example line_of_zeros :
  count_char (ascii_of_nat 10) (Stream.line (replicate 48 0%float)) = 1
  ∧ count_char "," (Stream.line (replicate 48 0%float)) = 47.
Proof. by vm_compute. Qed.

(** A missing validation file is reported and the script returns. *)
Example main_no_data :
  Validate.main targets_asarray None (Run.Evaluator (Some zero_model))
  = (["Unable to load features at `data/validation/data.hdf5`"], Ok tt).
Proof. reflexivity. Qed.

(** A single prediction row is broadcast over nine target rows as well. *)
Example main_broadcast_one_prediction :
  Validate.main targets_asarray (Some (validation_file 1 9))
    (Run.Evaluator (Some zero_model))
  = (["MAE: 0.0"], Ok tt).
Proof. by vm_compute. Qed.

(** The halving of [pairwise_sum] never runs out of depth: any two bounds
    of at least the length of the array give the same sum, so the sum of
    [pairwise_reduce] is the one of the unbounded recursion. *)
Lemma pairwise_sum_fuel {F : Type} (plus : F → F → F) (nought : F)
    (f f' : nat) (l : list F) :
  length l ≤ f → length l ≤ f' →
  pairwise_sum plus nought f l = pairwise_sum plus nought f' l.
Proof.
  revert f' l. induction f as [|f IH]; intros f' l Hf Hf'.
  - destruct l; [|simpl in Hf; lia]. by destruct f'.
  - destruct f' as [|f'].
    { destruct l; [done|simpl in Hf'; lia]. }
    cbn [pairwise_sum]. destruct (length l <? 8) eqn:H8; [done|].
    destruct (length l <=? 128) eqn:H128; [done|].
    apply Nat.leb_gt in H128.
    set (n := length l) in *.
    assert (n / 2 - (n / 2) mod 8 < n ∧ 0 < n / 2 - (n / 2) mod 8)
      as [Hlt Hpos].
    { pose proof (Nat.mod_upper_bound (n / 2) 8).
      pose proof (Nat.Div0.div_lt_upper_bound n 2 n).
      assert (64 ≤ n / 2) by (apply Nat.div_le_lower_bound; lia).
      lia. }
    revert Hlt Hpos. generalize (n / 2 - (n / 2) mod 8). intros half Hlt Hpos.
    f_equal; apply IH; rewrite ?length_take, ?length_drop; fold n; lia.
Qed.

(** Forty samples whose 1920 errors are all 0.1: the sum by halves and
    blocks gives the mean the script prints, which is not the one a sum
    from left to right would give. *)
Example main_forty_tenths :
  Validate.main targets_asarray (Some (constant_targets_file 40 tenth))
    (Run.Evaluator (Some zero_model))
  = (["MAE: 0.10000000000000002"], Ok tt)
  ∧ str_float (PrimFloat.div
                 (foldl PrimFloat.add 0%float (replicate 1920 tenth))
                 (of_count 1920))
    = "0.09999999999999655".
Proof. by vm_compute. Qed.

(** Numbers are printed the way Python prints them: the fewest digits
    that read back as the same number, an exponent from 1e16 on and
    below 1e-4. *)
Example str_float_samples :
  map str_float
    [tenth; 0.5; 1e16; 1e15; 0.000244140625; 9.5367431640625e-07; -2.5]%float
  = ["0.1"; "0.5"; "1e+16"; "1000000000000000.0"; "0.000244140625";
     "9.5367431640625e-07"; "-2.5"].
Proof. by vm_compute. Qed.

(** * Further properties *)

(** ** The batcher *)

Section BatcherFurther.

Context {Row : Type}.
Implicit Types (features fs : gmap string (list Row)) (variables : list string).

Import Batcher.

(** X1: the batcher never fails in the middle: either its first step
    raises and nothing was yielded, or it yields all its batches and
    returns. *)
Theorem batch_all_or_nothing features variables batch_size :
  (∃ e, fst (batch variables batch_size features) = Throw e)
  ∨ (∃ batches, fst (batch variables batch_size features) = yield_all batches).
Proof.
  destruct variables as [|v0 vs]; [left; by eexists|].
  destruct (decide (all_present features (v0 :: vs))) as [Hall|Hno].
  - rewrite batch_present by done. simpl.
    destruct (py_range _ batch_size); [right|left]; by eexists.
  - rewrite batch_missing by done. left. by eexists.
Qed.

Lemma all_present_agree fs1 fs2 variables :
  (∀ v, v ∈ variables → fs1 !! v = fs2 !! v) →
  all_present fs1 variables → all_present fs2 variables.
Proof.
  intros Hagree Hall. unfold all_present in *.
  rewrite Forall_forall in *. intros v Hv.
  rewrite <- Hagree by done. by apply Hall.
Qed.

(** X2: the batches depend on the requested series only: two files that
    agree on the requested variables give the same generator, whatever
    else they hold. *)
Theorem batch_frame fs1 fs2 variables batch_size :
  (∀ v, v ∈ variables → fs1 !! v = fs2 !! v) →
  fst (batch variables batch_size fs1) = fst (batch variables batch_size fs2).
Proof.
  intros Hagree. destruct variables as [|v0 vs]; [done|].
  assert (∀ v, v ∈ v0 :: vs → fs1 !!! v = fs2 !!! v) as Htotal.
  { intros v Hv. by rewrite !lookup_total_alt, Hagree. }
  destruct (decide (all_present fs1 (v0 :: vs))) as [Hall|Hno].
  - rewrite !batch_present; [|by eapply all_present_agree|done].
    cbn [fst]. rewrite (Htotal v0) by left.
    destruct (py_range _ batch_size) as [indices|e]; [|done].
    f_equal. apply List.map_ext. intros i.
    apply List.map_ext_in. intros v Hv.
    rewrite Htotal; [done|]. by apply list_elem_of_In.
  - assert (¬ all_present fs2 (v0 :: vs)) as Hno2.
    { intros Hall. apply Hno. eapply all_present_agree; [|exact Hall].
      intros v Hv. symmetry. by apply Hagree. }
    by rewrite (batch_missing fs1), (batch_missing fs2).
Qed.

Lemma concat_windows {A} (l : list A) (s n : nat) :
  concat (map (fun j => take s (drop (j * s) l)) (seq 0 n)) = take (n * s) l.
Proof.
  induction n as [|n IH]; [by rewrite take_0|].
  rewrite seq_S, List.map_app, List.concat_app, IH. simpl.
  rewrite app_nil_r, take_take_drop. f_equal. lia.
Qed.

(** X3: batching loses and repeats nothing of a series that is no longer
    than the first one: the slices of a variable, batch after batch, put
    end to end are the first (number of batches * batch_size) rows of its
    series, hence the whole series when it is no longer than the first;
    the rows of a longer series beyond that point are in no batch. *)
Theorem batch_reassembles features v0 vs batch_size (p : nat) v :
  all_present features (v0 :: vs) →
  (0 < batch_size)%Z →
  (v0 :: vs) !! p = Some v →
  concat (map (fun b => b !!! p)
            (yielded (fst (batch (v0 :: vs) batch_size features))))
  = take (length (yielded (fst (batch (v0 :: vs) batch_size features)))
          * Z.to_nat batch_size)
      (features !!! v)
  ∧ (length (features !!! v) ≤ length (features !!! v0) →
     concat (map (fun b => b !!! p)
               (yielded (fst (batch (v0 :: vs) batch_size features))))
     = features !!! v).
Proof.
  intros Hall Hpos Hp. rewrite batch_windows by done. cbn [fst].
  rewrite yielded_yield_all.
  set (s := Z.to_nat batch_size).
  set (n := Z.to_nat (ceil_div (Z.of_nat (length (features !!! v0))) batch_size)).
  assert (concat
            (map (fun b : list (list Row) => b !!! p)
               (map (fun j => map (fun v => take s (drop (j * s) (features !!! v)))
                                (v0 :: vs)) (seq 0 n)))
          = take (n * s) (features !!! v)) as Hcat.
  { rewrite List.map_map. rewrite <- concat_windows. f_equal.
    apply List.map_ext. intros j.
    rewrite map_is_fmap, (list_lookup_total_fmap _ _ p).
    - by rewrite (list_lookup_total_correct _ _ _ Hp).
    - by eapply lookup_lt_Some. }
  rewrite Hcat, length_map, length_seq. split; [done|].
  intros Hshort. apply take_ge.
  pose proof (window_count_covers (length (features !!! v0)) batch_size Hpos).
  fold s n in H. lia.
Qed.

(** X4: with every variable in the file, a batch size of zero is refused
    by [range] with a [ValueError], and a negative batch size gives a
    generator that returns at once: no batch and no error. *)
Theorem batch_nonpositive_size features v0 vs batch_size :
  all_present features (v0 :: vs) →
  (batch_size ≤ 0)%Z →
  fst (batch (v0 :: vs) batch_size features)
  = if decide (batch_size = 0%Z)
    then Throw (ValueError "range() arg 3 must not be zero")
    else Done.
Proof.
  intros Hall Hneg. rewrite batch_present by done. simpl.
  destruct batch_size as [|q|q]; [done|lia|done].
Qed.

End BatcherFurther.

Lemma batch_frame_witness :
  fst (Batcher.batch ["pv"; "hrv"] 32 sample_features)
  = fst (Batcher.batch ["pv"; "hrv"] 32 (<["nwp" := seq 5 7]> sample_features)).
Proof.
  apply (batch_frame sample_features (<["nwp" := seq 5 7]> sample_features)).
  intros v Hv.
  apply elem_of_cons in Hv as [->|Hv]; [reflexivity|].
  apply elem_of_cons in Hv as [->|Hv]; [reflexivity|].
  by apply elem_of_nil in Hv.
Defined.

Lemma batch_reassembles_witness :
  concat (map (fun b => b !!! 1)
            (yielded (fst (Batcher.batch ["pv"; "hrv"] 32 ragged_features))))
  = take (length (yielded (fst (Batcher.batch ["pv"; "hrv"] 32 ragged_features)))
          * Z.to_nat 32)
      (ragged_features !!! "hrv")
  ∧ (length (ragged_features !!! "hrv") ≤ length (ragged_features !!! "pv") →
     concat (map (fun b => b !!! 1)
               (yielded (fst (Batcher.batch ["pv"; "hrv"] 32 ragged_features))))
     = ragged_features !!! "hrv").
Proof.
  apply (batch_reassembles ragged_features "pv" ["hrv"] 32 1 "hrv").
  - exact ragged_features_present.
  - reflexivity.
  - reflexivity.
Defined.

Lemma batch_nonpositive_size_witness :
  fst (Batcher.batch ["pv"; "hrv"] (-4) sample_features) = Done.
Proof.
  apply (batch_nonpositive_size sample_features "pv" ["hrv"] (-4)).
  - exact sample_features_present.
  - discriminate.
Defined.

(** ** The evaluator of [run.py] *)

Section RunFurther.

Context {Row F : Type}.
Implicit Types (features : gmap string (list Row))
  (model : Run.Model (Row := Row) (F := F)).

Lemma predict_loop_windows model (pv hrv : list Row) (out : nat → ndarray F)
    (js : list nat) :
  (∀ j, j ∈ js → model (window 32 j pv) (window 32 j hrv) = Ok (out j)) →
  Run.predict_loop model
    (yield_all (map (fun j => [window 32 j pv; window 32 j hrv]) js))
  = yield_all (map out js).
Proof.
  induction js as [|j js IH]; intros Hout; [done|].
  simpl. rewrite Hout by left. f_equal. apply IH.
  intros j' Hj'. apply Hout. by right.
Qed.

Lemma predict_loop_failure model (pv hrv : list Row) (out : nat → ndarray F)
    (js rest : list nat) (k : nat) e :
  (∀ j, j ∈ js → model (window 32 j pv) (window 32 j hrv) = Ok (out j)) →
  model (window 32 k pv) (window 32 k hrv) = Raise e →
  yielded (Run.predict_loop model
             (yield_all (map (fun j => [window 32 j pv; window 32 j hrv])
                           (js ++ k :: rest))))
  = map out js
  ∧ outcome (Run.predict_loop model
               (yield_all (map (fun j => [window 32 j pv; window 32 j hrv])
                             (js ++ k :: rest))))
    = Raise e.
Proof.
  intros Hout Hfail. induction js as [|j js IH]; simpl.
  - by rewrite Hfail.
  - rewrite Hout by left. simpl.
    destruct IH as [IHy IHo]; [|by rewrite IHy, IHo].
    intros j' Hj'. apply Hout. by right.
Qed.

Lemma predict_unfold model features :
  Batcher.all_present features ["pv"; "hrv"] →
  Run.predict model features
  = Ok (Run.predict_loop model
          (yield_all
             (map (fun j => [window 32 j (features !!! "pv");
                             window 32 j (features !!! "hrv")])
                (seq 0 (Z.to_nat (ceil_div
                                    (Z.of_nat (length (features !!! "pv")))
                                    32)))))).
Proof.
  intros Hall. unfold Run.predict. by rewrite batch_windows.
Qed.

(** X5: with [pv] and [hrv] in the file and a network that answers every
    batch, [predict] returns a generator of ceil(len(pv) / 32) prediction
    batches and then returns: batch j is the answer of the network to
    rows [32 j, 32 j + 32) of [pv] and of [hrv]. *)
Theorem predict_batches model features (out : nat → ndarray F) :
  Batcher.all_present features ["pv"; "hrv"] →
  (∀ j, j < Z.to_nat (ceil_div (Z.of_nat (length (features !!! "pv"))) 32) →
        model (window 32 j (features !!! "pv"))
          (window 32 j (features !!! "hrv"))
        = Ok (out j)) →
  Run.predict model features
  = Ok (yield_all
          (map out
             (seq 0 (Z.to_nat (ceil_div
                                 (Z.of_nat (length (features !!! "pv")))
                                 32))))).
Proof.
  intros Hall Hout. rewrite predict_unfold by done. f_equal.
  apply predict_loop_windows. intros j Hj.
  apply Hout. apply elem_of_seq in Hj. lia.
Qed.

(** X6: when the network first fails on batch k, the generator of
    [predict] yields the k answers before it, in order, and then raises
    the network's exception: the batches after k are never asked for. *)
Theorem predict_stops_at_failure model features (out : nat → ndarray F)
    (k : nat) e :
  Batcher.all_present features ["pv"; "hrv"] →
  k < Z.to_nat (ceil_div (Z.of_nat (length (features !!! "pv"))) 32) →
  (∀ j, j < k →
        model (window 32 j (features !!! "pv"))
          (window 32 j (features !!! "hrv"))
        = Ok (out j)) →
  model (window 32 k (features !!! "pv")) (window 32 k (features !!! "hrv"))
  = Raise e →
  ∃ g, Run.predict model features = Ok g
       ∧ yielded g = map out (seq 0 k)
       ∧ outcome g = Raise e.
Proof.
  intros Hall Hk Hout Hfail. rewrite predict_unfold by done.
  eexists. split; [reflexivity|].
  set (n := Z.to_nat _) in *.
  replace (seq 0 n) with (seq 0 k ++ k :: seq (S k) (n - S k)).
  - apply predict_loop_failure; [|done].
    intros j Hj. apply Hout. apply elem_of_seq in Hj. lia.
  - replace n with (k + S (n - S k)) at 2 by lia.
    by rewrite seq_app.
Qed.

(** A missing [pv] or [hrv]: the call of [predict] still returns a
    generator, whose first step is the failed assertion of [batch]. *)
Lemma predict_missing model features :
  ¬ Batcher.all_present features ["pv"; "hrv"] →
  Run.predict model features = Ok (Throw AssertionError).
Proof.
  intros Hno. unfold Run.predict. by rewrite batch_missing.
Qed.

End RunFurther.

(** ** The live path *)

Section StreamFurther.

Context {Row F : Type} `{Numeric F}.
Implicit Types (w : Stream.world (Row := Row)) (g : gen (ndarray F))
  (predict : gmap string (list Row) → result (gen (ndarray F))).

Import Stream.

Lemma writes_keep_sink_open (samples : list (list F)) :
  Forall (fun ev => opens_or_closes ev = false)
    (map (fun sample => EWrite (line sample)) samples).
Proof. induction samples; by constructor. Qed.

Lemma for_gen_keeps_sink_open g :
  Forall (fun ev => opens_or_closes ev = false) (fst (for_gen g write_batch)).
Proof.
  induction g as [|e|b g IH]; [by repeat constructor..|].
  rewrite for_gen_yield. destruct (forallb _ (cells b)); simpl.
  - constructor; [done|]. apply Forall_app. split; [|done].
    unfold batch_events. apply Forall_app. split.
    + apply writes_keep_sink_open.
    + by repeat constructor.
  - constructor; [done|]. apply writes_keep_sink_open.
Qed.

(** X7: the sink is closed once and last on every way out of
    [evaluate], normal or not, and opened once and first; when it cannot
    be opened nothing happens at all: no input is opened and [predict]
    is not called. *)
Theorem evaluate_closes_sink w predict :
  (writable w (sink_path w) = true →
   ∃ body,
     fst (evaluate w predict)
     = EOpenSink (sink_path w) :: body ++ [ECloseSink]
     ∧ Forall (fun ev => opens_or_closes ev = false) body)
  ∧ (writable w (sink_path w) = false →
     fst (evaluate w predict) = []
     ∧ ∃ e, snd (evaluate w predict) = Raise e).
Proof.
  split.
  - intros Hw.
    destruct (argv w !! 1) as [path|] eqn:Harg.
    2:{ rewrite evaluate_no_argument by done.
        exists [EWrite ("OK" +:+ nl); EFlush]. by repeat constructor. }
    destruct (h5files w !! path) as [features|] eqn:Hfile.
    2:{ rewrite (evaluate_no_file w predict path) by done.
        exists [EWrite ("OK" +:+ nl); EFlush; EOpenFeatures path].
        by repeat constructor. }
    destruct (predict features) as [g|e] eqn:Hcall.
    2:{ rewrite (evaluate_no_generator w predict path features e) by done.
        exists [EWrite ("OK" +:+ nl); EFlush; EOpenFeatures path].
        by repeat constructor. }
    rewrite (evaluate_run w predict path features g) by done.
    exists ([EWrite ("OK" +:+ nl); EFlush; EOpenFeatures path]
            ++ fst (for_gen g write_batch)).
    split; [by rewrite <- app_assoc|].
    apply Forall_app. split; [by repeat constructor|].
    apply for_gen_keeps_sink_open.
  - intros Hw. unfold evaluate, with_open. rewrite Hw.
    split; [done|by eexists].
Qed.

Lemma count_char_joined c sep (parts : list string) :
  Forall (fun part => count_char c part = 0) parts →
  count_char c (String.concat sep parts)
  = (length parts - 1) * count_char c sep.
Proof.
  induction 1 as [|part parts Hpart Hparts IH]; [done|].
  simpl. destruct parts as [|part' parts]; [simpl; lia|].
  rewrite !count_char_append, Hpart, IH. simpl. lia.
Qed.

Lemma line_commas (sample : list F) :
  Forall (fun x => count_char "," (str_float x) = 0) sample →
  count_char "," (line sample) = length sample - 1.
Proof.
  intros Hclean. unfold line.
  rewrite count_char_append, count_char_joined.
  - rewrite length_map. simpl. lia.
  - rewrite map_is_fmap. by apply Forall_fmap.
Qed.

Lemma line_feeds (sample : list F) :
  Forall (fun x => count_char (ascii_of_nat 10) (str_float x) = 0) sample →
  count_char (ascii_of_nat 10) (line sample) = 1.
Proof.
  intros Hclean. unfold line.
  rewrite count_char_append, count_char_concat; [done..|].
  rewrite map_is_fmap. by apply Forall_fmap.
Qed.

Lemma shaped_prefix_members (samples : list (list F)) :
  Forall (fun sample => length sample = 48 ∧ sample ∈ samples)
    (shaped_prefix samples).
Proof.
  induction samples as [|sample samples IH]; [constructor|].
  simpl. destruct (Nat.eqb_spec (length sample) 48) as [Hlen|Hlen];
    [|constructor].
  constructor; [split; [done|by left]|].
  eapply Forall_impl; [exact IH|]. intros s [? ?]. split; [done|by right].
Qed.

(** X8: when the numbers print without a comma and without a line feed,
    every line of a run after the readiness line has exactly 48 fields:
    it holds 47 commas and ends in its only line feed. *)
Theorem evaluate_lines_have_48_fields w predict path features g :
  writable w (sink_path w) = true →
  argv w !! 1 = Some path →
  h5files w !! path = Some features →
  predict features = Ok g →
  (∀ b sample x, b ∈ yielded g → sample ∈ cells b → x ∈ sample →
     count_char "," (str_float x) = 0
     ∧ count_char (ascii_of_nat 10) (str_float x) = 0) →
  ∃ lines,
    written (fst (evaluate w predict)) = ("OK" +:+ nl) :: lines
    ∧ Forall (fun l => count_char "," l = 47
                       ∧ count_char (ascii_of_nat 10) l = 1
                       ∧ ∃ body, l = body +:+ nl) lines.
Proof.
  intros Hw Harg Hfile Hcall Hclean.
  rewrite (evaluate_run w predict path features g) by done.
  destruct (for_gen_written g) as [Hwr _].
  eexists. split.
  { simpl. rewrite written_app, Hwr. simpl. by rewrite app_nil_r. }
  rewrite map_is_fmap. apply Forall_fmap.
  eapply Forall_impl; [apply shaped_prefix_members|].
  intros sample [Hlen Hin]. simpl.
  assert (∀ x, x ∈ sample →
            count_char "," (str_float x) = 0
            ∧ count_char (ascii_of_nat 10) (str_float x) = 0) as Hx.
  { intros x Hx. apply list_elem_of_In, in_concat in Hin as (row & Hrow & Hin).
    apply in_map_iff in Hrow as (b & <- & Hb).
    apply (Hclean b sample x);
      [by apply list_elem_of_In | by apply list_elem_of_In | done]. }
  split; [|split; [|by eexists]].
  - rewrite line_commas, Hlen; [done|].
    apply Forall_forall. intros x Hin'. by apply Hx.
  - apply line_feeds. apply Forall_forall. intros x Hin'. by apply Hx.
Qed.

End StreamFurther.

(** ** The script of [run.py], end to end *)

Section RunMainFurther.

Context {Row F : Type} `{Numeric F}.
Implicit Types (w : Stream.world (Row := Row))
  (features : gmap string (list Row))
  (model : Run.Model (Row := Row) (F := F)).

Import Stream.

(** X9: when the feature file lacks [pv] or [hrv], the script writes and
    flushes the readiness line, opens the file, and fails on the
    batcher's assertion at the first request for a batch, whatever the
    network: the sink holds "OK" only. *)
Theorem run_main_missing_variable w model path features :
  writable w (sink_path w) = true →
  argv w !! 1 = Some path →
  h5files w !! path = Some features →
  ¬ Batcher.all_present features ["pv"; "hrv"] →
  run_main w (Some model)
  = ([EOpenSink (sink_path w); EWrite ("OK" +:+ nl); EFlush;
      EOpenFeatures path; ENext; ECloseSink],
     Raise AssertionError).
Proof.
  intros Hw Harg Hfile Hno. unfold run_main. simpl.
  rewrite (evaluate_run w (Run.predict model) path features
             (Throw AssertionError)); [done..|].
  by apply predict_missing.
Qed.

Lemma predict_loop_answered model features (js : list nat) :
  (∀ j, j ∈ js → answers_batch model features j) →
  ∃ ys,
    Run.predict_loop model
      (yield_all (map (fun j => [window 32 j (features !!! "pv");
                                 window 32 j (features !!! "hrv")]) js))
    = yield_all ys
    ∧ Forall2 (fun j y => nrows y = length (window 32 j (features !!! "pv"))
                          ∧ Forall (fun sample => length sample = 48) (cells y))
        js ys.
Proof.
  induction js as [|j js IH]; intros Hmodel.
  - exists []. split; [done|constructor].
  - destruct IH as (ys & Hrun & Hys).
    { intros j' Hj'. apply Hmodel. by right. }
    destruct (Hmodel j) as (y & Hy & Hn & Hc); [by left|].
    exists (y :: ys). split.
    + simpl. by rewrite Hy, Hrun.
    + by constructor.
Qed.

Lemma good_samples (y : ndarray F) :
  Forall (fun sample => length sample = 48) (cells y) →
  forallb (fun sample => length sample =? 48) (cells y) = true.
Proof.
  intros Hall. apply forallb_forall. intros sample Hin.
  apply Nat.eqb_eq. rewrite Forall_forall in Hall.
  apply Hall. by apply list_elem_of_In.
Qed.

(** The loop over batches that all pass the shape check. *)
Lemma for_gen_all_good (ys : list (ndarray F)) :
  Forall (fun y => Forall (fun sample => length sample = 48) (cells y)) ys →
  for_gen (yield_all ys) write_batch
  = (flat_map (fun y => ENext :: batch_events y) ys ++ [ENext], Ok tt).
Proof.
  induction 1 as [|y ys Hy _ IH]; [done|].
  change (yield_all (y :: ys)) with (Yield y (yield_all ys)).
  rewrite for_gen_yield, good_samples, IH by done. simpl.
  by rewrite <- app_assoc.
Qed.

Lemma written_all_good (ys : list (ndarray F)) :
  written (flat_map (fun y => ENext :: batch_events y) ys ++ [ENext])
  = map line (concat (map cells ys)).
Proof.
  induction ys as [|y ys IH]; [done|].
  simpl. rewrite <- app_assoc, written_app, written_batch_events, IH.
  by rewrite List.map_app.
Qed.

Lemma flushes_all_good (ys : list (ndarray F)) :
  length (List.filter is_flush
            (flat_map (fun y => ENext :: batch_events y) ys ++ [ENext]))
  = length ys.
Proof.
  induction ys as [|y ys IH]; [done|].
  simpl. rewrite <- app_assoc, List.filter_app, length_app, IH.
  unfold batch_events. rewrite List.filter_app, length_app. simpl.
  replace (List.filter is_flush (map (fun sample => EWrite (line sample)) (cells y)))
    with (@nil event); [simpl; lia|].
  induction (cells y); simpl; congruence.
Qed.

(** X10: with [pv] and [hrv] in the file and a network that answers
    each of the ceil(len(pv) / 32) batches of the run with one row of 48
    numbers per sample of the batch, the script ends normally, the sink
    receives the readiness line and then one line per sample of [pv],
    and it is flushed once after the readiness line and once per batch.
    Nothing is asked of the network on other inputs. *)
Theorem run_main_one_line_per_sample w model path features :
  writable w (sink_path w) = true →
  argv w !! 1 = Some path →
  h5files w !! path = Some features →
  Batcher.all_present features ["pv"; "hrv"] →
  (∀ j, j < Z.to_nat (ceil_div (Z.of_nat (length (features !!! "pv"))) 32) →
        answers_batch model features j) →
  snd (run_main w (Some model)) = Ok tt
  ∧ length (written (fst (run_main w (Some model))))
    = 1 + length (features !!! "pv")
  ∧ Z.of_nat (length (List.filter is_flush (fst (run_main w (Some model)))))
    = (1 + ceil_div (Z.of_nat (length (features !!! "pv"))) 32)%Z.
Proof.
  intros Hw Harg Hfile Hall Hmodel. unfold run_main. simpl.
  set (pv := features !!! "pv"). set (hrv := features !!! "hrv").
  set (n := Z.to_nat (ceil_div (Z.of_nat (length pv)) 32)).
  destruct (predict_loop_answered model features (seq 0 n))
    as (ys & Hrun & Hys).
  { intros j Hj. apply Hmodel. apply elem_of_seq in Hj. fold pv n. lia. }
  fold pv hrv in Hrun, Hys.
  rewrite (evaluate_run w (Run.predict model) path features (yield_all ys));
    [|done..|by rewrite predict_unfold, <- Hrun].
  assert (Forall (fun y => Forall (fun sample => length sample = 48) (cells y)) ys)
    as Hgood.
  { clear -Hys. induction Hys as [|j y js ys [_ Hy] _ IH]; by constructor. }
  assert (sum_list (map nrows ys) = length pv) as Hsum.
  { transitivity (sum_list (map (fun j => Nat.min 32 (length pv - j * 32)) (seq 0 n))).
    - clear -Hys. induction Hys as [|j y js ys [Hn _] _ IH]; [done|].
      simpl. rewrite IH, Hn. unfold window. by rewrite length_window.
    - rewrite sum_windows.
      pose proof (window_count_covers (length pv) 32 ltac:(lia)) as Hcov.
      fold n in Hcov. change (Z.to_nat 32) with 32 in Hcov. lia. }
  rewrite for_gen_all_good by done. simpl fst. simpl snd.
  split; [done|]. split.
  - simpl. rewrite written_app, written_all_good. simpl.
    rewrite app_nil_r, length_map, length_concat_cells. by rewrite Hsum.
  - simpl. rewrite List.filter_app, length_app, flushes_all_good. simpl.
    apply Forall2_length in Hys. rewrite length_seq in Hys. rewrite <- Hys.
    subst n.
    pose proof (ceil_div_bounds (Z.of_nat (length pv)) 32 ltac:(lia)). lia.
Qed.

(** X11: a generator of well-shaped batches that the accumulation loop
    of the validation script accepts is written in full by the live
    path: the run ends normally and the sink receives the readiness line
    and one line per accumulated row, in order. *)
Theorem validated_batches_stream w predict path features g predictions :
  writable w (sink_path w) = true →
  argv w !! 1 = Some path →
  h5files w !! path = Some features →
  predict features = Ok g →
  Forall well_shaped (yielded g) →
  Validate.collect g [] = Ok predictions →
  snd (evaluate w predict) = Ok tt
  ∧ written (fst (evaluate w predict))
    = ("OK" +:+ nl) :: map line (concat (map cells predictions)).
Proof.
  intros Hw Harg Hfile Hcall Hshaped Hcollect.
  assert (∀ acc ps, Validate.collect g acc = Ok ps →
            outcome g = Ok tt ∧ Forall (fun b => ncols b = 48) (yielded g))
    as Hfacts.
  { clear. induction g as [|e|b g IH]; intros acc ps; simpl; [done..|].
    destruct (Nat.eqb_spec (ncols b) 48) as [Hb|Hb]; [|done].
    intros Hrun. destruct (IH _ _ Hrun). split; [done|by constructor]. }
  destruct (Hfacts _ _ Hcollect) as [Hend Hcols].
  apply collect_yielded in Hcollect. simpl in Hcollect. subst predictions.
  assert (forallb (fun sample => length sample =? 48)
            (concat (map cells (yielded g))) = true) as Hgood.
  { apply forallb_forall. intros sample Hin. apply Nat.eqb_eq.
    apply in_concat in Hin as (row & Hrow & Hin).
    apply in_map_iff in Hrow as (b & <- & Hb).
    rewrite Forall_forall in Hshaped, Hcols.
    apply list_elem_of_In in Hb.
    specialize (Hshaped b Hb). unfold well_shaped in Hshaped.
    rewrite Forall_forall in Hshaped.
    rewrite (Hshaped sample) by by apply list_elem_of_In. by apply Hcols. }
  rewrite (evaluate_run w predict path features g) by done.
  destruct (for_gen_written g) as [Hwr Hres].
  simpl fst. simpl snd. rewrite Hres, Hgood. split; [done|].
  simpl. rewrite written_app, Hwr. simpl.
  by rewrite app_nil_r, shaped_prefix_all.
Qed.

End RunMainFurther.

(** ** The validation script *)

Section ValidateFurther.

Context {Row F : Type} `{Numeric F}.
Context (asarray : list Row → ndarray F).
Implicit Types (data : gmap string (list Row)) (g : gen (ndarray F))
  (predict : gmap string (list Row) → result (gen (ndarray F))).

Import Validate.

(** The accumulation loop ends normally only on a generator that returns
    and whose batches all have 48 columns. *)
Lemma collect_accepts g (acc predictions : list (ndarray F)) :
  collect g acc = Ok predictions →
  outcome g = Ok tt ∧ Forall (fun b => ncols b = 48) (yielded g).
Proof.
  revert acc. induction g as [|e|b g IH]; intros acc; simpl; [done..|].
  destruct (Nat.eqb_spec (ncols b) 48) as [Hb|Hb]; [|done].
  intros Hrun. destruct (IH _ Hrun). split; [done|by constructor].
Qed.

Lemma collect_rejects g (acc : list (ndarray F)) :
  Exists (fun b => ncols b ≠ 48) (yielded g) →
  collect g acc = Raise AssertionError.
Proof.
  revert acc. induction g as [|e|b g IH]; intros acc Hbad; simpl in *.
  - by apply Exists_nil in Hbad.
  - by apply Exists_nil in Hbad.
  - destruct (Nat.eqb_spec (ncols b) 48) as [Hb|Hb]; [|done].
    apply Exists_cons in Hbad as [Hbad|Hbad]; [done|]. by apply IH.
Qed.

(** X12: one yielded batch whose last axis is not 48 long stops the
    validation on the assertion, whatever was yielded around it and
    whatever the targets are: nothing is printed. *)
Theorem main_rejects_wrong_width data predict g :
  predict data = Ok g →
  Exists (fun b => ncols b ≠ 48) (yielded g) →
  main asarray (Some data) (Ok predict) = ([], Raise AssertionError).
Proof.
  intros Hcall Hbad. unfold main. by rewrite Hcall, collect_rejects.
Qed.

(** X13: the script ends normally in two ways only.  Either the data
    file is missing: it prints the diagnostic and nothing else, and no
    evaluator is built.  Or the run was complete: the constructor and the
    call of [predict] succeeded, the generator returned, it yielded at
    least one batch, every batch has 48 columns, the targets are in the
    file and their shape is compatible, by NumPy's broadcasting, with that
    of the predictions put together; then it prints the one line of the
    error.  When it ends with an exception the data file was there and
    nothing was printed. *)
Theorem main_prints_after_complete_run data_file Evaluator out r :
  main asarray data_file Evaluator = (out, r) →
  (r = Ok tt →
   (data_file = None
    ∧ out = ["Unable to load features at `" +:+ DATA_PATH +:+ "`"])
   ∨ (∃ data predict g targets mae,
        data_file = Some data
        ∧ Evaluator = Ok predict
        ∧ predict data = Ok g
        ∧ outcome g = Ok tt
        ∧ yielded g ≠ []
        ∧ Forall (fun b => ncols b = 48) (yielded g)
        ∧ data !! "targets" = Some targets
        ∧ is_Some (Numpy.broadcast_dim (nrows (asarray targets))
                     (sum_list (map nrows (yielded g))))
        ∧ is_Some (Numpy.broadcast_dim (ncols (asarray targets)) 48)
        ∧ out = ["MAE: " +:+ str_float mae]))
  ∧ (∀ e, r = Raise e → is_Some data_file ∧ out = []).
Proof.
  unfold main. intros Hmain.
  destruct data_file as [data|].
  2:{ injection Hmain as <- <-. split; [|done]. intros _. by left. }
  destruct Evaluator as [predict|e]; [|by injection Hmain as <- <-].
  destruct (predict data) as [g|e] eqn:Hcall; [|by injection Hmain as <- <-].
  destruct (collect g []) as [predictions|e] eqn:Hcollect;
    [|by injection Hmain as <- <-].
  destruct (collect_accepts _ _ _ Hcollect) as [Hend Hcols].
  apply collect_yielded in Hcollect. simpl in Hcollect. subst predictions.
  destruct (data !! "targets") as [targets|] eqn:Htargets;
    [|by injection Hmain as <- <-].
  destruct (Numpy.concatenate (yielded g)) as [predicted|e] eqn:Hcat;
    [|by injection Hmain as <- <-].
  destruct (Numpy.subtract (asarray targets) predicted) as [difference|e]
    eqn:Hsub; [|by injection Hmain as <- <-].
  injection Hmain as <- <-. split; [|done]. intros _. right.
  exists data, predict, g, targets. eexists.
  destruct (concatenate_rows _ _ Hcat) as [_ Hrows].
  assert (yielded g ≠ [] ∧ ncols predicted = 48) as [Hne Hwidth].
  { unfold Numpy.concatenate in Hcat.
    destruct (yielded g) as [|b0 bs] eqn:Hy; [done|].
    destruct (forallb _ _); [|done]. injection Hcat as <-.
    split; [done|]. simpl. by inversion Hcols. }
  unfold Numpy.subtract in Hsub. rewrite Hrows, Hwidth in Hsub.
  destruct (Numpy.broadcast_dim (nrows (asarray targets)) _) eqn:Hr; [|done].
  destruct (Numpy.broadcast_dim (ncols (asarray targets)) 48) eqn:Hc; [|done].
  repeat (split; [done|]). reflexivity.
Qed.

(** X14: on a file whose [pv] series is empty the evaluator of [run.py]
    yields no batch, and the script fails in [numpy.concatenate] instead
    of reporting an error of zero samples: nothing is printed, whatever
    the network and the targets. *)
Theorem main_empty_dataset data (model : Run.Model (Row := Row) (F := F)) :
  data !! "pv" = Some [] →
  is_Some (data !! "hrv") →
  is_Some (data !! "targets") →
  main asarray (Some data) (Run.Evaluator (Some model))
  = ([], Raise (ValueError "need at least one array to concatenate")).
Proof.
  intros Hpv Hhrv [targets Htargets]. unfold main, Run.Evaluator.
  rewrite predict_unfold.
  2:{ constructor; [by eexists|]. constructor; [done|constructor]. }
  rewrite (lookup_total_correct _ _ _ Hpv). simpl.
  by rewrite Htargets.
Qed.

End ValidateFurther.

Section BroadcastFurther.

Context {Row F : Type} `{Numeric F}.
Context (asarray : list Row → ndarray F).

Import Validate.

(** A single row is subtracted from every row of an array of the same
    width. *)
Lemma subtract_single_row (a b : ndarray F) (row : list F) :
  cells a = [row] → length row = ncols b → ncols a = ncols b →
  well_shaped b →
  Numpy.subtract a b
  = Ok (mk_ndarray (ncols b)
          (zip_with (zip_with sub) (replicate (nrows b) row) (cells b))).
Proof.
  intros Ha Hrow Hcols Hb. unfold Numpy.subtract.
  assert (Numpy.broadcast_dim (nrows a) (nrows b) = Some (nrows b)) as ->.
  { assert (nrows a = 1) as -> by (unfold nrows; by rewrite Ha).
    unfold Numpy.broadcast_dim.
    destruct (1 =? nrows b) eqn:Hone; [|reflexivity].
    apply Nat.eqb_eq in Hone. by rewrite <- Hone. }
  rewrite Hcols, broadcast_dim_same.
  rewrite (broadcast_to_same _ _ b) by done.
  unfold Numpy.broadcast_to. rewrite Ha. simpl.
  rewrite map_is_fmap, fmap_replicate, stretch_same by done. done.
Qed.

(** X15: when the targets are a single row of 48 numbers, the script
    does not fail: it compares that row with every prediction row and
    prints the mean absolute error against the row repeated once per
    prediction. *)
Theorem main_single_target_row data targets predict batches (row : list F) :
  data !! "targets" = Some targets →
  cells (asarray targets) = [row] →
  ncols (asarray targets) = 48 →
  length row = 48 →
  predict data = Ok (yield_all batches) →
  batches ≠ [] →
  Forall (fun b => well_shaped b ∧ ncols b = 48) batches →
  main asarray (Some data) (Ok predict)
  = (["MAE: " +:+
      str_float (mean_abs_error
                   (replicate (sum_list (map nrows batches)) row)
                   (concat (map cells batches)))],
     Ok tt).
Proof.
  intros Htargets Hcells Hcols Hrow Hpredict Hne Hbatches.
  assert (Forall (fun b => ncols b = 48) batches) as Hcols48.
  { eapply Forall_impl; [exact Hbatches|]. by intros b [_ ?]. }
  assert (Forall (fun r => length r = 48) (concat (map cells batches)))
    as Hwide.
  { clear -Hbatches. induction Hbatches as [|b batches [Hb Hc] _ IH];
      [constructor|].
    simpl. apply Forall_app. split; [|done].
    unfold well_shaped in Hb. by rewrite Hc in Hb. }
  unfold main. rewrite Hpredict, collect_yield_all by done. simpl app.
  rewrite Htargets, (concatenate_48 batches) by done.
  rewrite (subtract_single_row _ _ row) by done.
  unfold nrows at 1. simpl cells. simpl ncols.
  rewrite length_concat_cells.
  rewrite (mean_absolute_difference 48); [done| |by apply Forall_replicate|done].
  by rewrite length_replicate, length_concat_cells.
Qed.

End BroadcastFurther.

(** ** The network, by shapes *)

Local Open Scope N_scope.

Lemma Conv2d_ok (i o k n c h w : N) (s : Model.shape4) :
  Model.Conv2d i o k (n, c, h, w) = Ok s
  ↔ c = i ∧ k ≤ h ∧ k ≤ w ∧ s = (n, o, h - k + 1, w - k + 1).
Proof.
  unfold Model.Conv2d.
  destruct (N.eqb_spec c i) as [->|Hc]; simpl.
  - destruct (N.ltb_spec h k); simpl.
    + split; [done|]. intros (_ & ? & _). lia.
    + destruct (N.ltb_spec w k); simpl.
      * split; [done|]. intros (_ & _ & ? & _). lia.
      * split; [by intros [= <-]|]. by intros (_ & _ & _ & ->).
  - split; [done|]. by intros [? _].
Qed.

Lemma MaxPool2d_ok (k n c h w : N) (s : Model.shape4) :
  Model.MaxPool2d k (n, c, h, w) = Ok s
  ↔ k ≤ h ∧ k ≤ w ∧ s = (n, c, (h - k) / k + 1, (w - k) / k + 1).
Proof.
  unfold Model.MaxPool2d.
  destruct (N.ltb_spec h k); simpl.
  - split; [done|]. intros (? & _). lia.
  - destruct (N.ltb_spec w k); simpl.
    + split; [done|]. intros (_ & ? & _). lia.
    + split; [by intros [= <-]|]. by intros (_ & _ & ->).
Qed.

Lemma and_then_ok {A B} (r : result A) (k : A → result B) (b : B) :
  Model.and_then r k = Ok b ↔ ∃ a, r = Ok a ∧ k a = Ok b.
Proof.
  destruct r as [a|e]; simpl.
  - split; [by exists a|]. by intros (a' & [= <-] & ?).
  - split; [done|]. by intros (a' & ? & _).
Qed.

Lemma halve_step (h : N) : 4 ≤ h → (h - 3 + 1 - 2) / 2 + 1 = (h - 2) / 2.
Proof.
  intros Hh. assert (h - 2 = (h - 3 + 1 - 2) + 1 * 2) as -> by lia.
  by rewrite N.div_add.
Qed.

(** One round of convolution and pooling. *)
Lemma round_ok (i o n c h w : N) (s : Model.shape4) :
  Model.and_then (Model.Conv2d i o 3 (n, c, h, w)) (Model.MaxPool2d 2) = Ok s
  ↔ c = i ∧ 4 ≤ h ∧ 4 ≤ w ∧ s = (n, o, (h - 2) / 2, (w - 2) / 2).
Proof.
  rewrite and_then_ok. split.
  - intros (x & Hconv & Hpool). apply Conv2d_ok in Hconv as (-> & Hh & Hw & ->).
    apply MaxPool2d_ok in Hpool as (Hh' & Hw' & ->).
    split; [done|]. split; [lia|]. split; [lia|].
    rewrite !halve_step by lia. done.
  - intros (-> & Hh & Hw & ->). eexists. split.
    + apply Conv2d_ok. repeat split; lia.
    + apply MaxPool2d_ok. split; [lia|]. split; [lia|].
      rewrite !halve_step by lia. done.
Qed.

Lemma round_then {B} (i o n c h w : N) (k : Model.shape4 → result B) (s : B) :
  Model.and_then (Model.Conv2d i o 3 (n, c, h, w))
    (fun x => Model.and_then (Model.MaxPool2d 2 x) k) = Ok s
  ↔ c = i ∧ 4 ≤ h ∧ 4 ≤ w ∧ k (n, o, (h - 2) / 2, (w - 2) / 2) = Ok s.
Proof.
  split.
  - intros Hrun. apply and_then_ok in Hrun as (x & Hconv & Hrun).
    apply and_then_ok in Hrun as (y & Hpool & Hk).
    destruct (proj1 (round_ok i o n c h w y)) as (-> & Hh & Hw & ->).
    { apply and_then_ok. by exists x. }
    done.
  - intros (-> & Hh & Hw & Hk).
    pose proof (proj2 (round_ok i o n i h w _)
                  (conj eq_refl (conj Hh (conj Hw eq_refl)))) as Hround.
    apply and_then_ok in Hround as (x & Hconv & Hpool).
    apply and_then_ok. exists x. split; [done|].
    apply and_then_ok. by eexists.
Qed.

Ltac Zify.zify_post_hook ::= Z.to_euclidean_division_equations.

Lemma reduced_bounds (h : N) :
  (4 ≤ h ∧ 4 ≤ (h - 2) / 2 ∧ 4 ≤ ((h - 2) / 2 - 2) / 2
   ∧ 4 ≤ (((h - 2) / 2 - 2) / 2 - 2) / 2)
  ↔ 46 ≤ h.
Proof. lia. Qed.

Lemma reduced_is_6 (h : N) : Model.reduced h = 6 ↔ 126 ≤ h ≤ 141.
Proof. unfold Model.reduced. lia. Qed.

Lemma forward_characterised (m p n c h w : N) (s : Model.shape2) :
  Model.forward (m, p) (n, c, h, w) = Ok s
  ↔ c = 12 ∧ m = n ∧ 46 ≤ h ∧ 46 ≤ w
    ∧ 192 * Model.reduced h * Model.reduced w + p = 6924
    ∧ s = (n, 48).
Proof.
  unfold Model.forward, Model.conv1, Model.conv2, Model.conv3, Model.conv4,
    Model.pool, Model.relu, Model.sigmoid, Model.flatten, Model.linear1.
  rewrite round_then. cbv beta. rewrite round_then. cbv beta.
  rewrite round_then. cbv beta. rewrite round_then. cbv beta.
  rewrite <- (reduced_bounds h), <- (reduced_bounds w).
  fold (Model.reduced h) (Model.reduced w).
  unfold Model.concat, Model.Flatten, Model.Linear. cbn [fst snd].
  destruct (N.eqb_spec n m) as [->|Hnm]; cbn [Model.and_then fst snd].
  - destruct (N.eqb_spec (192 * Model.reduced h * Model.reduced w + p) 6924)
      as [Hlin|Hlin].
    + split.
      * intros (-> & ? & ? & _ & ? & ? & _ & ? & ? & _ & ? & ? & [= <-]).
        done.
      * intros (-> & _ & (? & ? & ? & ?) & (? & ? & ? & ?) & _ & ->).
        done.
    + split; [|by intros (_ & _ & _ & _ & ? & _)].
      by intros (_ & _ & _ & _ & _ & _ & _ & _ & _ & _ & _ & _ & ?).
  - split; [|by intros (_ & -> & _)].
    by intros (_ & _ & _ & _ & _ & _ & _ & _ & _ & _ & _ & _ & ?).
Qed.

(** X16: whatever the shapes of its arguments, when the network returns
    it returns one row of 48 numbers per image of the batch. *)
Theorem forward_output_shape (pv : Model.shape2) (hrv : Model.shape4)
    (s : Model.shape2) :
  Model.forward pv hrv = Ok s → s = (fst (fst (fst hrv)), 48).
Proof.
  destruct pv as [m p], hrv as [[[n c] h] w].
  intros Hrun. by apply forward_characterised in Hrun as (_ & _ & _ & _ & _ & ->).
Qed.

(** X17: the network accepts a batch exactly when the images have 12
    channels, there are as many [pv] rows as images, both sides of the
    images are at least 46 long, and 192 times the product of the
    reduced sides plus the length of a [pv] row is 6924, the input width
    of the last layer. *)
Theorem forward_accepts (m p n c h w : N) :
  (∃ s, Model.forward (m, p) (n, c, h, w) = Ok s)
  ↔ c = 12 ∧ m = n ∧ 46 ≤ h ∧ 46 ≤ w
    ∧ 192 * Model.reduced h * Model.reduced w + p = 6924.
Proof.
  split.
  - intros [s Hrun].
    apply forward_characterised in Hrun as (? & ? & ? & ? & ? & _). done.
  - intros (? & ? & ? & ? & ?). exists (n, 48).
    apply forward_characterised. done.
Qed.

(** X18: on square images of 12 channels, with [pv] rows of 12 numbers,
    the network returns exactly when the side is between 126 and 141,
    128 among them; outside that range the last layer refuses its
    input. *)
Theorem forward_square_sides (n h : N) :
  Model.forward (n, 12) (n, 12, h, h) = Ok (n, 48) ↔ 126 ≤ h ≤ 141.
Proof.
  rewrite forward_characterised, <- reduced_is_6. split.
  - intros (_ & _ & _ & _ & Hlin & _). nia.
  - intros Hr. rewrite Hr. apply reduced_is_6 in Hr. repeat split; lia.
Qed.

(** ** The further statements at the sample worlds *)

Local Close Scope N_scope.

Lemma validation_file_present (n m : nat) :
  Batcher.all_present (validation_file n m) ["pv"; "hrv"].
Proof.
  constructor; [by eexists|]. constructor; [by eexists|]. constructor.
Defined.

Lemma matching_model_answers (n m j : nat) :
  answers_batch matching_model (validation_file n m) j.
Proof.
  unfold answers_batch, matching_model.
  assert (validation_file n m !!! "pv" = replicate n (replicate 12 0.5%float))
    as -> by reflexivity.
  assert (validation_file n m !!! "hrv" = replicate n (replicate 4 0.25%float))
    as -> by reflexivity.
  unfold window. rewrite !length_take, !length_drop, !length_replicate.
  rewrite Nat.eqb_refl. eexists. split; [reflexivity|]. split.
  - unfold nrows. simpl. by rewrite length_map, length_take, length_drop,
      length_replicate.
  - simpl. apply Forall_forall. intros sample Hin.
    rewrite map_is_fmap in Hin. apply list_elem_of_fmap in Hin as (? & -> & _).
    reflexivity.
Defined.

Lemma predict_batches_witness :
  Run.predict zero_model (validation_file 40 0)
  = Ok (yield_all
          (map (zero_answer (validation_file 40 0 !!! "pv"))
             (seq 0 (Z.to_nat
                       (ceil_div
                          (Z.of_nat (length (validation_file 40 0 !!! "pv")))
                          32))))).
Proof.
  apply (predict_batches zero_model (validation_file 40 0)
           (zero_answer (validation_file 40 0 !!! "pv"))).
  - apply validation_file_present.
  - intros j _. reflexivity.
Defined.

Lemma predict_stops_at_failure_witness :
  ∃ g, Run.predict full_batch_model (validation_file 40 0) = Ok g
       ∧ yielded g = map (zero_answer (validation_file 40 0 !!! "pv")) (seq 0 1)
       ∧ outcome g = Raise (RuntimeError "batch too small").
Proof.
  apply (predict_stops_at_failure full_batch_model (validation_file 40 0)
           (zero_answer (validation_file 40 0 !!! "pv")) 1).
  - apply validation_file_present.
  - vm_compute. lia.
  - intros j Hj. assert (j = 0) as -> by lia. reflexivity.
  - reflexivity.
Defined.

Lemma evaluate_lines_have_48_fields_witness :
  ∃ lines,
    Stream.written (fst (Stream.evaluate live_world (Run.predict zero_model)))
    = ("OK" +:+ nl) :: lines
    ∧ Forall (fun l => count_char "," l = 47
                       ∧ count_char (ascii_of_nat 10) l = 1
                       ∧ ∃ body, l = body +:+ nl) lines.
Proof.
  apply (evaluate_lines_have_48_fields live_world (Run.predict zero_model)
           "features.hdf5" (validation_file 3 0)
           (yield_all [mk_ndarray 48 (replicate 3 (replicate 48 0%float))]));
    [reflexivity..|].
  intros b sample x Hb Hsample Hx.
  apply list_elem_of_singleton in Hb as ->.
  apply elem_of_replicate in Hsample as [-> _].
  apply elem_of_replicate in Hx as [-> _].
  split; reflexivity.
Defined.

Lemma run_main_missing_variable_witness :
  run_main pv_only_world (Some zero_model)
  = ([EOpenSink (Stream.sink_path pv_only_world); EWrite ("OK" +:+ nl); EFlush;
      EOpenFeatures "features.hdf5"; ENext; ECloseSink],
     Raise AssertionError).
Proof.
  apply (run_main_missing_variable pv_only_world zero_model "features.hdf5"
           (pv_only_file 3)); [reflexivity..|].
  intros Hall. apply Forall_inv_tail, Forall_inv in Hall.
  destruct Hall as [d Hd]. discriminate Hd.
Defined.

Lemma run_main_one_line_per_sample_witness :
  snd (run_main long_world (Some matching_model)) = Ok tt
  ∧ length (Stream.written (fst (run_main long_world (Some matching_model))))
    = 1 + length (validation_file 40 0 !!! "pv")
  ∧ Z.of_nat (length (List.filter is_flush
                        (fst (run_main long_world (Some matching_model)))))
    = (1 + ceil_div (Z.of_nat (length (validation_file 40 0 !!! "pv"))) 32)%Z.
Proof.
  apply (run_main_one_line_per_sample long_world matching_model "features.hdf5"
           (validation_file 40 0)); [reflexivity..| |].
  - apply validation_file_present.
  - intros j _. apply matching_model_answers.
Defined.

(** Forty samples: two batches, forty lines, three flushes. *)
Example run_main_forty_samples :
  length (Stream.written (fst (run_main long_world (Some zero_model)))) = 41
  ∧ length (List.filter is_flush (fst (run_main long_world (Some zero_model))))
    = 3.
Proof. by vm_compute. Qed.

Lemma validated_batches_stream_witness :
  snd (Stream.evaluate live_world (Run.predict zero_model)) = Ok tt
  ∧ Stream.written (fst (Stream.evaluate live_world (Run.predict zero_model)))
    = ("OK" +:+ nl)
      :: map Stream.line
           (concat (map cells
                      [mk_ndarray 48 (replicate 3 (replicate 48 0%float))])).
Proof.
  apply (validated_batches_stream live_world (Run.predict zero_model)
           "features.hdf5" (validation_file 3 0)
           (yield_all [mk_ndarray 48 (replicate 3 (replicate 48 0%float))]));
    [reflexivity..| |reflexivity].
  constructor; [|constructor].
  unfold well_shaped. simpl. repeat constructor.
Defined.

Lemma main_rejects_wrong_width_witness :
  Validate.main targets_asarray (Some (validation_file 40 40))
    (Ok (Run.predict short_model))
  = ([], Raise AssertionError).
Proof.
  apply (main_rejects_wrong_width targets_asarray (validation_file 40 40)
           (Run.predict short_model)
           (Run.predict_loop short_model
              (fst (Batcher.batch ["pv"; "hrv"] 32 (validation_file 40 40)))));
    [reflexivity|].
  vm_compute. left. discriminate.
Defined.

Lemma main_prints_after_complete_run_witness :
  (Ok tt = Ok tt →
   (Some (validation_file 10 10) = None
    ∧ ["MAE: 0.0"]
      = ["Unable to load features at `" +:+ Validate.DATA_PATH +:+ "`"])
   ∨ (∃ data predict g targets mae,
        Some (validation_file 10 10) = Some data
        ∧ Run.Evaluator (Some zero_model) = Ok predict
        ∧ predict data = Ok g
        ∧ outcome g = Ok tt
        ∧ yielded g ≠ []
        ∧ Forall (fun b => ncols b = 48) (yielded g)
        ∧ data !! "targets" = Some targets
        ∧ is_Some (Numpy.broadcast_dim (nrows (targets_asarray targets))
                     (sum_list (map nrows (yielded g))))
        ∧ is_Some (Numpy.broadcast_dim (ncols (targets_asarray targets)) 48)
        ∧ ["MAE: 0.0"] = ["MAE: " +:+ str_float mae]))
  ∧ (∀ e, Ok tt = Raise e →
       is_Some (Some (validation_file 10 10)) ∧ ["MAE: 0.0"] = []).
Proof.
  apply (main_prints_after_complete_run targets_asarray
           (Some (validation_file 10 10)) (Run.Evaluator (Some zero_model))
           ["MAE: 0.0"] (Ok tt)).
  reflexivity.
Defined.

Lemma main_empty_dataset_witness :
  Validate.main targets_asarray (Some (validation_file 0 5))
    (Run.Evaluator (Some zero_model))
  = ([], Raise (ValueError "need at least one array to concatenate")).
Proof.
  apply (main_empty_dataset targets_asarray (validation_file 0 5) zero_model).
  - reflexivity.
  - by eexists.
  - by eexists.
Defined.

Lemma main_single_target_row_witness :
  Validate.main targets_asarray (Some (validation_file 10 1))
    (Ok (Run.predict zero_model))
  = (["MAE: " +:+
      str_float
        (Validate.mean_abs_error
           (replicate
              (sum_list
                 (map nrows
                    [mk_ndarray 48 (replicate 10 (replicate 48 0%float))]))
              (replicate 48 0%float))
           (concat (map cells
                      [mk_ndarray 48 (replicate 10 (replicate 48 0%float))])))],
     Ok tt).
Proof.
  apply (main_single_target_row targets_asarray (validation_file 10 1)
           (replicate 1 (replicate 48 0%float)) (Run.predict zero_model)
           [mk_ndarray 48 (replicate 10 (replicate 48 0%float))]
           (replicate 48 0%float)).
  - reflexivity.
  - reflexivity.
  - reflexivity.
  - reflexivity.
  - reflexivity.
  - discriminate.
  - constructor; [|constructor]. split; [|reflexivity].
    unfold well_shaped. simpl. repeat constructor.
Defined.

Lemma forward_output_shape_witness :
  (32, 48)%N = (fst (fst (fst (32, 12, 128, 128)%N)), 48%N).
Proof.
  apply (forward_output_shape (32, 12)%N (32, 12, 128, 128)%N (32, 48)%N).
  reflexivity.
Defined.

(** The shapes of the competition data: images of 128 by 128 in 12
    channels and [pv] rows of 12 numbers, through every layer. *)
Example forward_128 :
  Model.forward (32, 12)%N (32, 12, 128, 128)%N = Ok (32, 48)%N
  ∧ Model.reduced 128 = 6%N
  ∧ (192 * 6 * 6 + 12 = 6924)%N.
Proof. by vm_compute. Qed.

Lemma evaluate_closes_sink_witness :
  ∃ body,
    fst (Stream.evaluate lost_world (Run.predict zero_model))
    = EOpenSink (Stream.sink_path lost_world) :: body ++ [ECloseSink]
    ∧ Forall (fun ev => opens_or_closes ev = false) body.
Proof.
  apply (evaluate_closes_sink lost_world (Run.predict zero_model)).
  reflexivity.
Defined.
